(** * Shop API: schemas, document mapper and request handlers

    A shallow embedding of [schemas.py] (the pydantic models [Product],
    [OrderItem], [Order]) and of [main.py] (the output models, the mappers
    [to_product_out] and [to_order_out], and the route handlers), followed by
    the properties the specification states about them.

    Python values are an inductive type, documents and payloads are
    dictionaries from field names to values, Python floats are IEEE binary64
    numbers (the Standard Library's [spec_float]), an exception is a value of
    [exn], and a handler is a function on the process state (the store handle,
    the environment and the trace of store calls). *)

From Stdlib Require Import ZArith String Ascii List Bool Lia.
From Stdlib Require Import SpecFloat DecimalString.
Import ListNotations.

Set Warnings "-register-all".

Local Open Scope string_scope.
Local Open Scope list_scope.

(* ------------------------------------------------------------------ *)
(** ** Floats *)

Module Float.

(** Python's [float] is a binary64 number. *)
Definition float : Type := spec_float.

Definition prec : Z := 53.
Definition emax : Z := 1024.

(** The nearest binary64 number of an integer (ties to even); an integer
    beyond the largest finite number rounds to an infinity. *)
Definition of_Z (z : Z) : float := binary_normalize prec emax z 0 false.

Definition zero : float := S754_zero false.
Definition one : float := Eval vm_compute in of_Z 1.

Definition leb (x y : float) : bool := SFleb x y.
Definition ltb (x y : float) : bool := SFltb x y.
Definition eqb (x y : float) : bool := SFeqb x y.

Definition is_infinite (x : float) : bool :=
  match x with S754_infinity _ => true | _ => false end.

(** The integer a float denotes, when it is finite and has no fractional
    part. *)
Definition to_Z (x : float) : option Z :=
  match x with
  | S754_zero _ => Some 0%Z
  | S754_finite s m e =>
      let mag :=
        match e with
        | Z0 => Some (Zpos m)
        | Zpos p => Some (Zpos m * 2 ^ Zpos p)%Z
        | Zneg p =>
            if (Zpos m mod 2 ^ Zpos p =? 0)%Z
            then Some (Zpos m / 2 ^ Zpos p)%Z else None
        end in
      option_map (fun z => if s then (- z)%Z else z) mag
  | _ => None
  end.

End Float.

(* ------------------------------------------------------------------ *)
(** ** Python values, dictionaries and exceptions *)

(** The values a JSON payload or a stored document holds. [VObjectId] is the
    store's identifier type ([bson.ObjectId]); it carries the identifier's
    hexadecimal text. *)
Inductive value : Type :=
| VNone
| VBool (b : bool)
| VInt (z : Z)
| VFloat (f : Float.float)
| VStr (s : string)
| VList (l : list value)
| VDict (d : list (string * value))
| VObjectId (hex : string).

(** A dictionary with string keys: the first binding of a key is its value. *)
Definition dict : Type := list (string * value).

Fixpoint get (k : string) (d : dict) : option value :=
  match d with
  | [] => None
  | (k', v) :: d' => if String.eqb k k' then Some v else get k d'
  end.

(** [d.get(k, default)] *)
Definition get_default (k : string) (default : value) (d : dict) : value :=
  match get k d with Some v => v | None => default end.

(** [d.get(k)]: the default is [None]. *)
Definition get_none (k : string) (d : dict) : value := get_default k VNone d.

(** [d[k] = v] *)
Fixpoint set (k : string) (v : value) (d : dict) : dict :=
  match d with
  | [] => [(k, v)]
  | (k', v') :: d' =>
      if String.eqb k k' then (k, v) :: d' else (k', v') :: set k v d'
  end.

Inductive exn : Type :=
| TypeError
| ValueError
| OverflowError
| ValidationError
| HTTPException (status_code : Z) (detail : string)
| StoreError (msg : string).

Inductive result (A : Type) : Type :=
| Ok (a : A)
| Raise (e : exn).
Arguments Ok {A} a.
Arguments Raise {A} e.

Definition bind {A B} (r : result A) (k : A -> result B) : result B :=
  match r with Ok a => k a | Raise e => Raise e end.

Notation "x <- r ;; k" := (bind r (fun x => k))
  (at level 61, r at next level, right associativity).

(** Run [f] over a list from left to right; the first exception ends it. *)
Fixpoint map_result {A B} (f : A -> result B) (l : list A) : result (list B) :=
  match l with
  | [] => Ok []
  | a :: l' => b <- f a ;; bs <- map_result f l' ;; Ok (b :: bs)
  end.

(* ------------------------------------------------------------------ *)
(** ** Text helpers *)

Definition lower_ascii (c : ascii) : ascii :=
  let n := nat_of_ascii c in
  if (65 <=? n)%nat && (n <=? 90)%nat then ascii_of_nat (n + 32) else c.

Fixpoint lower (s : string) : string :=
  match s with
  | EmptyString => EmptyString
  | String c s' => String (lower_ascii c) (lower s')
  end.

(** A Python string is a sequence of characters (code points); it is held
    here in its UTF-8 encoding, where a character is one byte that is not a
    continuation byte, followed by its continuation bytes (the bytes
    [10xxxxxx], 128 to 191). *)
Definition is_continuation (c : ascii) : bool :=
  let n := nat_of_ascii c in (128 <=? n)%nat && (n <? 192)%nat.

(** [len(s)]: the number of characters. *)
Fixpoint char_count (s : string) : nat :=
  match s with
  | EmptyString => 0
  | String c s' => (if is_continuation c then 0 else 1) + char_count s'
  end.

(** [s[:n]]: the first [n] characters, each with all its bytes. *)
Fixpoint take (n : nat) (s : string) : string :=
  match s with
  | EmptyString => EmptyString
  | String c s' =>
      if is_continuation c then String c (take n s')
      else
        match n with
        | O => EmptyString
        | S n' => String c (take n' s')
        end
  end.

Definition mem_string (s : string) (l : list string) : bool :=
  existsb (String.eqb s) l.

(* ------------------------------------------------------------------ *)
(** ** The libraries the code calls

    What the Python runtime, pydantic and email-validator compute on text is
    taken as given: reading a number from a string, the syntax and
    normalisation of an e-mail address, and the printed form of floats and
    containers. *)

Record PyLib : Type := mkPyLib {
  (** [float(s)] on a string: [None] when [s] is not a number. *)
  str_to_float : string -> option Float.float;
  (** an integer written in a string, as pydantic reads it *)
  str_to_int : string -> option Z;
  (** email-validator: the normalised address, [None] for a malformed one *)
  email_syntax : string -> option string;
  (** [str(v)] for floats, lists and dictionaries *)
  repr : value -> string;
  (** [str(e)] for the built-in exceptions *)
  exn_text : exn -> string;
  (** the store's regular expressions: [regex_search pattern options text]
      tells whether [pattern] matches somewhere in [text] *)
  regex_search : string -> string -> string -> bool
}.

(* ------------------------------------------------------------------ *)
(** ** schemas.py: the records *)

Module User.
Record t : Type := mk {
  name : string;
  email : string;
  address : option string;
  age : option Z;
  is_active : bool
}.
End User.

Module Product.
Record t : Type := mk {
  title : string;
  description : option string;
  price : Float.float;
  category : string;
  image : option string;
  in_stock : bool
}.
End Product.

Module OrderItem.
Record t : Type := mk {
  product_id : string;
  title : string;
  price : Float.float;
  quantity : Z;
  image : option string
}.
End OrderItem.

(** A number as Python holds it: an [int] or a [float]. *)
Inductive number : Type :=
| NInt (z : Z)
| NFloat (f : Float.float).

Definition number_value (n : number) : value :=
  match n with
  | NInt z => VInt z
  | NFloat f => VFloat f
  end.

(** The float a number denotes. *)
Definition number_float (n : number) : Float.float :=
  match n with
  | NInt z => Float.of_Z z
  | NFloat f => f
  end.

(** [tax] is declared a float with the default [0]: a validated tax is a
    float, the default is kept as it is written, the integer 0. *)
Module Order.
Record t : Type := mk {
  customer_name : string;
  customer_email : string;
  shipping_address : string;
  items : list OrderItem.t;
  subtotal : Float.float;
  tax : number;
  total : Float.float;
  status : string
}.
End Order.

(** ** main.py: the output records *)

Module ProductOut.
Record t : Type := mk {
  id : string;
  title : string;
  description : option string;
  price : Float.float;
  category : string;
  image : option string;
  in_stock : bool
}.
End ProductOut.

Module OrderOut.
Record t : Type := mk {
  id : string;
  customer_name : string;
  customer_email : string;
  shipping_address : string;
  items : list OrderItem.t;
  subtotal : Float.float;
  tax : Float.float;
  total : Float.float;
  status : string
}.
End OrderOut.

(* ------------------------------------------------------------------ *)
(** ** Python built-ins used by the mappers *)

Section Builtins.

Variable L : PyLib.

(** [float(v)] *)
Definition py_float (v : value) : result Float.float :=
  match v with
  | VNone => Raise TypeError
  | VBool b => Ok (if b then Float.one else Float.zero)
  | VInt z =>
      let f := Float.of_Z z in
      if Float.is_infinite f then Raise OverflowError else Ok f
  | VFloat f => Ok f
  | VStr s =>
      match str_to_float L s with
      | Some f => Ok f
      | None => Raise ValueError
      end
  | VList _ => Raise TypeError
  | VDict _ => Raise TypeError
  | VObjectId _ => Raise TypeError
  end.

(** [bool(v)]: the truth value of [v]. *)
Definition py_bool (v : value) : bool :=
  match v with
  | VNone => false
  | VBool b => b
  | VInt z => negb (z =? 0)%Z
  | VFloat f => negb (Float.eqb f Float.zero)
  | VStr s => negb (String.eqb s "")
  | VList l => match l with [] => false | _ :: _ => true end
  | VDict d => match d with [] => false | _ :: _ => true end
  | VObjectId _ => true
  end.

(** [str(v)]; an [ObjectId] prints as its hexadecimal text. *)
Definition py_str (v : value) : string :=
  match v with
  | VNone => "None"
  | VBool b => if b then "True" else "False"
  | VInt z => NilZero.string_of_int (Z.to_int z)
  | VStr s => s
  | VObjectId hex => hex
  | VFloat _ => repr L v
  | VList _ => repr L v
  | VDict _ => repr L v
  end.

(* ------------------------------------------------------------------ *)
(** ** pydantic: field types

    Each field type reads a value or rejects it ([None]).  Numbers and
    booleans follow pydantic's conversion rules for input parsed from JSON:
    a float field takes a float, an integer, a boolean or a numeric string;
    an integer field takes an integer, a boolean, a float without fractional
    part that lies strictly between -2^63 and 2^63, or an integer string; a
    string field takes a string only. *)

Definition as_str (v : value) : option string :=
  match v with VStr s => Some s | _ => None end.

(** [Optional[T]]: [None] or a [T]. *)
Definition as_optional {A} (conv : value -> option A) (v : value)
  : option (option A) :=
  match v with
  | VNone => Some None
  | _ => option_map Some (conv v)
  end.

Definition as_float (v : value) : option Float.float :=
  match v with
  | VFloat f => Some f
  | VInt z =>
      let f := Float.of_Z z in
      if Float.is_infinite f then None else Some f
  | VBool b => Some (if b then Float.one else Float.zero)
  | VStr s => str_to_float L s
  | _ => None
  end.

Definition as_int (v : value) : option Z :=
  match v with
  | VInt z => Some z
  | VBool b => Some (if b then 1 else 0)%Z
  | VFloat f =>
      match Float.to_Z f with
      | Some z =>
          if (- 2 ^ 63 <? z)%Z && (z <? 2 ^ 63)%Z then Some z else None
      | None => None
      end
  | VStr s => str_to_int L s
  | _ => None
  end.

Definition as_bool (v : value) : option bool :=
  match v with
  | VBool b => Some b
  | VInt z =>
      if (z =? 0)%Z then Some false
      else if (z =? 1)%Z then Some true else None
  | VFloat f =>
      if Float.eqb f Float.zero then Some false
      else if Float.eqb f Float.one then Some true else None
  | VStr s =>
      if mem_string (lower s) ["0"; "off"; "f"; "false"; "n"; "no"]
      then Some false
      else if mem_string (lower s) ["1"; "on"; "t"; "true"; "y"; "yes"]
      then Some true else None
  | _ => None
  end.

(** [EmailStr]: a string that email-validator accepts, normalised. *)
Definition as_email (v : value) : option string :=
  match v with VStr s => email_syntax L s | _ => None end.

(** [List[T]]: a list whose every element reads as a [T], in order. *)
Fixpoint all_some {A} (l : list (option A)) : option (list A) :=
  match l with
  | [] => Some []
  | Some a :: l' => option_map (cons a) (all_some l')
  | None :: _ => None
  end.

Definition as_list {A} (conv : value -> option A) (v : value)
  : option (list A) :=
  match v with
  | VList l => all_some (map conv l)
  | _ => None
  end.

(** Constraints: [ge=b] holds of [x] when [b <= x]. *)
Definition ge_float (b : Float.float) (x : Float.float) : bool := Float.leb b x.
Definition ge_int (b : Z) (x : Z) : bool := (b <=? x)%Z.

Definition check {A} (c : A -> bool) (o : option A) : option A :=
  match o with
  | Some a => if c a then Some a else None
  | None => None
  end.

(** [Field(...)]: the field must be present. *)
Definition required {A} (k : string) (conv : value -> option A) (d : dict)
  : option A :=
  match get k d with
  | Some v => conv v
  | None => None
  end.

(** [Field(default)]: an absent field takes the default as it is; a present
    one is read like a required one. *)
Definition defaulted {A} (k : string) (default : A)
  (conv : value -> option A) (d : dict) : option A :=
  match get k d with
  | Some v => conv v
  | None => Some default
  end.

Definition obind {A B} (o : option A) (k : A -> option B) : option B :=
  match o with Some a => k a | None => None end.

Definition validated {A} (o : option A) : result A :=
  match o with Some a => Ok a | None => Raise ValidationError end.

End Builtins.

Notation "'let?' x ':=' o 'in' k" := (obind o (fun x => k))
  (at level 10, x name, o at level 100, k at level 200).

(* ------------------------------------------------------------------ *)
(** ** schemas.py: validation *)

Section Schemas.

Variable L : PyLib.

(** [le=b] holds of [x] when [x <= b]. *)
Definition le_int (b : Z) (x : Z) : bool := (x <=? b)%Z.

(** The model [User] built from the fields [d]; the bounds of [age] bear on
    an integer, not on [None]. *)
Definition User_validate (d : dict) : result User.t :=
  validated (
    let? name := required "name" as_str d in
    let? email := required "email" (as_email L) d in
    let? address := defaulted "address" None (as_optional as_str) d in
    let? age :=
      defaulted "age" None
        (as_optional
           (fun v =>
              check (fun a => ge_int 0 a && le_int 120 a) (as_int L v))) d in
    let? is_active := defaulted "is_active" true as_bool d in
    Some (User.mk name email address age is_active)).

(** The model [Product] built from the fields [d]. *)
Definition Product_validate (d : dict) : result Product.t :=
  validated (
    let? title := required "title" as_str d in
    let? description := defaulted "description" None (as_optional as_str) d in
    let? price := check (ge_float Float.zero) (required "price" (as_float L) d) in
    let? category := required "category" as_str d in
    let? image := defaulted "image" None (as_optional as_str) d in
    let? in_stock := defaulted "in_stock" true as_bool d in
    Some (Product.mk title description price category image in_stock)).

(** The model [OrderItem] built from the fields [d]. *)
Definition OrderItem_fields (d : dict) : option OrderItem.t :=
  let? product_id := required "product_id" as_str d in
  let? title := required "title" as_str d in
  let? price := check (ge_float Float.zero) (required "price" (as_float L) d) in
  let? quantity := check (ge_int 1) (required "quantity" (as_int L) d) in
  let? image := defaulted "image" None (as_optional as_str) d in
  Some (OrderItem.mk product_id title price quantity image).

Definition OrderItem_validate (d : dict) : result OrderItem.t :=
  validated (OrderItem_fields d).

(** A value read as an [OrderItem]: a dictionary of its fields. *)
Definition as_OrderItem (v : value) : option OrderItem.t :=
  match v with
  | VDict d => OrderItem_fields d
  | _ => None
  end.

(** The model [Order] built from the fields [d].  A default is not validated:
    an absent [tax] is the integer 0 as written in the declaration, an absent
    [status] the text "pending". *)
Definition Order_validate (d : dict) : result Order.t :=
  validated (
    let? customer_name := required "customer_name" as_str d in
    let? customer_email := required "customer_email" (as_email L) d in
    let? shipping_address := required "shipping_address" as_str d in
    let? items := required "items" (as_list as_OrderItem) d in
    let? subtotal :=
      check (ge_float Float.zero) (required "subtotal" (as_float L) d) in
    let? tax :=
      defaulted "tax" (NInt 0)
        (fun v =>
           option_map NFloat (check (ge_float Float.zero) (as_float L v))) d in
    let? total := check (ge_float Float.zero) (required "total" (as_float L) d) in
    let? status := defaulted "status" "pending" as_str d in
    Some (Order.mk customer_name customer_email shipping_address items
            subtotal tax total status)).

(** [model_dump()]: the fields of a record as a dictionary. *)
Definition dump_optional (o : option string) : value :=
  match o with Some s => VStr s | None => VNone end.

Definition Product_dump (p : Product.t) : dict :=
  [ ("title", VStr (Product.title p));
    ("description", dump_optional (Product.description p));
    ("price", VFloat (Product.price p));
    ("category", VStr (Product.category p));
    ("image", dump_optional (Product.image p));
    ("in_stock", VBool (Product.in_stock p)) ].

Definition OrderItem_dump (i : OrderItem.t) : dict :=
  [ ("product_id", VStr (OrderItem.product_id i));
    ("title", VStr (OrderItem.title i));
    ("price", VFloat (OrderItem.price i));
    ("quantity", VInt (OrderItem.quantity i));
    ("image", dump_optional (OrderItem.image i)) ].

Definition Order_dump (o : Order.t) : dict :=
  [ ("customer_name", VStr (Order.customer_name o));
    ("customer_email", VStr (Order.customer_email o));
    ("shipping_address", VStr (Order.shipping_address o));
    ("items", VList (map (fun i => VDict (OrderItem_dump i)) (Order.items o)));
    ("subtotal", VFloat (Order.subtotal o));
    ("tax", number_value (Order.tax o));
    ("total", VFloat (Order.total o));
    ("status", VStr (Order.status o)) ].

(* ------------------------------------------------------------------ *)
(** ** main.py: the output models and the mappers *)

(** [ProductOut(id=.., title=.., ..)]: every argument is validated against
    the field's type. *)
Definition ProductOut_init
  (id title description price category image in_stock : value)
  : result ProductOut.t :=
  validated (
    let? id := as_str id in
    let? title := as_str title in
    let? description := as_optional as_str description in
    let? price := as_float L price in
    let? category := as_str category in
    let? image := as_optional as_str image in
    let? in_stock := as_bool in_stock in
    Some (ProductOut.mk id title description price category image in_stock)).

(** [OrderOut(id=.., .., items=.., ..)]; [items] is a [List[OrderItem]]. *)
Definition OrderOut_init
  (id customer_name customer_email shipping_address items
     subtotal tax total status : value)
  : result OrderOut.t :=
  validated (
    let? id := as_str id in
    let? customer_name := as_str customer_name in
    let? customer_email := as_str customer_email in
    let? shipping_address := as_str shipping_address in
    let? items := as_list as_OrderItem items in
    let? subtotal := as_float L subtotal in
    let? tax := as_float L tax in
    let? total := as_float L total in
    let? status := as_str status in
    Some (OrderOut.mk id customer_name customer_email shipping_address items
            subtotal tax total status)).

Definition to_product_out (doc : dict) : result ProductOut.t :=
  let id := VStr (py_str L (get_none "_id" doc)) in
  let title := get_none "title" doc in
  let description := get_none "description" doc in
  price <- py_float L (get_none "price" doc) ;;
  let category := get_none "category" doc in
  let image := get_none "image" doc in
  let in_stock := VBool (py_bool (get_default "in_stock" (VBool true) doc)) in
  ProductOut_init id title description (VFloat price) category image in_stock.

Definition to_order_out (doc : dict) : result OrderOut.t :=
  let id := VStr (py_str L (get_none "_id" doc)) in
  let customer_name := get_none "customer_name" doc in
  let customer_email := get_none "customer_email" doc in
  let shipping_address := get_none "shipping_address" doc in
  let items := get_default "items" (VList []) doc in
  subtotal <- py_float L (get_default "subtotal" (VInt 0) doc) ;;
  tax <- py_float L (get_default "tax" (VInt 0) doc) ;;
  total <- py_float L (get_default "total" (VInt 0) doc) ;;
  let status := get_default "status" (VStr "pending") doc in
  OrderOut_init id customer_name customer_email shipping_address items
    (VFloat subtotal) (VFloat tax) (VFloat total) status.

End Schemas.

(* ------------------------------------------------------------------ *)
(** ** The document store *)

(** Equality of values, as the store compares a field with a filter value. *)
Fixpoint value_eqb (a b : value) {struct a} : bool :=
  match a, b with
  | VNone, VNone => true
  | VBool x, VBool y => Bool.eqb x y
  | VInt x, VInt y => (x =? y)%Z
  | VFloat x, VFloat y => Float.eqb x y
  | VStr x, VStr y => String.eqb x y
  | VObjectId x, VObjectId y => String.eqb x y
  | VList x, VList y =>
      (fix all2 (x y : list value) : bool :=
         match x, y with
         | [], [] => true
         | a' :: x', b' :: y' => value_eqb a' b' && all2 x' y'
         | _, _ => false
         end) x y
  | VDict x, VDict y =>
      (fix all2 (x y : list (string * value)) : bool :=
         match x, y with
         | [], [] => true
         | (k, a') :: x', (k', b') :: y' =>
             String.eqb k k' && value_eqb a' b' && all2 x' y'
         | _, _ => false
         end) x y
  | _, _ => false
  end.

(** The store behind the handle [db]: its name, its collections (each a
    sequence of documents), whether its calls currently fail (and with which
    message), and the counter its identifiers are drawn from. *)
Record Database : Type := {
  db_name : option string;
  db_collections : list (string * list dict);
  db_fault : option string;
  db_next_id : nat
}.

(** The calls made on the store. *)
Inductive call : Type :=
| GetDocuments (collection : string) (filter : dict)
| CreateDocument (collection : string) (data : dict)
| ListCollectionNames.

(** The process state a handler runs in: the module-level handle [db]
    ([None] when the store is not configured), the environment variables and
    the trace of store calls, oldest first. *)
Record World : Type := {
  db : option Database;
  environ : list (string * string);
  calls : list call
}.

Definition Handler (A : Type) : Type := World -> result A * World.

Definition ret {A} (a : A) : Handler A := fun w => (Ok a, w).

Definition raise {A} (e : exn) : Handler A := fun w => (Raise e, w).

Definition bindH {A B} (m : Handler A) (k : A -> Handler B) : Handler B :=
  fun w =>
    match m w with
    | (Ok a, w') => k a w'
    | (Raise e, w') => (Raise e, w')
    end.

Notation "x <~ m ;; k" := (bindH m (fun x => k))
  (at level 61, m at next level, right associativity).

Definition lift {A} (r : result A) : Handler A := fun w => (r, w).

Definition record_call (c : call) (w : World) : World :=
  {| db := db w; environ := environ w; calls := calls w ++ [c] |}.

Definition with_db (d : Database) (w : World) : World :=
  {| db := Some d; environ := environ w; calls := calls w |}.

Fixpoint collection (name : string) (cs : list (string * list dict))
  : list dict :=
  match cs with
  | [] => []
  | (n, docs) :: cs' =>
      if String.eqb name n then docs else collection name cs'
  end.

Fixpoint insert_document (name : string) (doc : dict)
  (cs : list (string * list dict)) : list (string * list dict) :=
  match cs with
  | [] => [(name, [doc])]
  | (n, docs) :: cs' =>
      if String.eqb name n then (n, docs ++ [doc]) :: cs'
      else (n, docs) :: insert_document name doc cs'
  end.

(** The text of the [n]-th identifier: 24 digits. *)
Fixpoint zeros (n : nat) : string :=
  match n with O => "" | S n' => String "0" (zeros n') end.

Definition oid_text (n : nat) : string :=
  let digits := NilZero.string_of_uint (Nat.to_uint n) in
  zeros (24 - String.length digits) ++ digits.

(** A record's fields under the identifier the store gave it. *)
Definition attach_id (oid : string) (data : dict) : dict :=
  ("_id", VObjectId oid) :: data.

Section Store.

Variable L : PyLib.

(** [str(e)] *)
Definition exn_str (e : exn) : string :=
  match e with
  | StoreError msg => msg
  | _ => exn_text L e
  end.

(** Modelled from the spec: the store's find semantics (database.py and the
    store are not part of the sources).  A filter selects the documents that
    satisfy the condition of every key it holds.  A condition that is a
    dictionary with the operator [$regex] holds of a text field that the
    pattern matches under the given [$options]; any other condition is a
    plain value and holds of a field equal to it. *)
Definition condition_holds (cond : value) (field : option value) : bool :=
  match cond with
  | VDict ops =>
      match get "$regex" ops with
      | Some (VStr pattern) =>
          match field with
          | Some (VStr text) =>
              regex_search L pattern
                (match get "$options" ops with Some (VStr o) => o | _ => "" end)
                text
          | _ => false
          end
      | _ =>
          match field with Some v => value_eqb cond v | None => false end
      end
  | _ => match field with Some v => value_eqb cond v | None => false end
  end.

Definition matches (filter : dict) (doc : dict) : bool :=
  forallb (fun kc => condition_holds (snd kc) (get (fst kc) doc)) filter.

(** Modelled from the spec: [database.get_documents(collection, filter)],
    the store accessor's find: the documents of the collection that the
    filter selects.  The call fails when the store is not configured or not
    reachable.  The order in which a collection keeps and returns its
    documents is a choice of this model (the order of insertion); neither
    the specification nor the sources fix it. *)
Definition get_documents (name : string) (filter : dict)
  : Handler (list dict) :=
  fun w =>
    let w' := record_call (GetDocuments name filter) w in
    match db w with
    | None => (Raise (StoreError "Database not available"), w')
    | Some d =>
        match db_fault d with
        | Some msg => (Raise (StoreError msg), w')
        | None =>
            (Ok (List.filter (matches filter) (collection name (db_collections d))),
             w')
        end
    end.

(** Modelled from the spec: [database.create_document(collection, data)],
    the store accessor's create: the store assigns a fresh identifier, keeps
    the record's fields under it and returns the identifier's text. *)
Definition create_document (name : string) (data : dict) : Handler string :=
  fun w =>
    let w' := record_call (CreateDocument name data) w in
    match db w with
    | None => (Raise (StoreError "Database not available"), w')
    | Some d =>
        match db_fault d with
        | Some msg => (Raise (StoreError msg), w')
        | None =>
            let oid := oid_text (db_next_id d) in
            let doc := attach_id oid data in
            (Ok oid,
             with_db {| db_name := db_name d;
                        db_collections :=
                          insert_document name doc (db_collections d);
                        db_fault := db_fault d;
                        db_next_id := S (db_next_id d) |} w')
        end
    end.

(** Modelled from the spec: [db.list_collection_names()], the names of the
    store's collections. *)
Definition list_collection_names (d : Database) : Handler (list string) :=
  fun w =>
    let w' := record_call ListCollectionNames w in
    match db_fault d with
    | Some msg => (Raise (StoreError msg), w')
    | None => (Ok (map fst (db_collections d)), w')
    end.

End Store.

(* ------------------------------------------------------------------ *)
(** ** main.py: the route handlers *)

Section Handlers.

Variable L : PyLib.

(** The truth value of an optional query parameter: [None] and the empty
    string are false. *)
Definition truthy (o : option string) : bool :=
  match o with
  | Some s => negb (String.eqb s "")
  | None => false
  end.

Definition param (o : option string) : string :=
  match o with Some s => s | None => "" end.

(** The filter [list_products] builds from its query parameters. *)
Definition list_products_filter (category q : option string) : dict :=
  let filter_dict := [] in
  let filter_dict :=
    if truthy category
    then set "category" (VStr (param category)) filter_dict
    else filter_dict in
  let filter_dict :=
    if truthy q
    then set "title"
           (VDict [("$regex", VStr (param q)); ("$options", VStr "i")])
           filter_dict
    else filter_dict in
  filter_dict.

(** GET / *)
Definition read_root : Handler dict :=
  ret [("message", VStr "Shop API running")].

(** GET /products *)
Definition list_products (category q : option string)
  : Handler (list ProductOut.t) :=
  fun w =>
    match db w with
    | None => ret [] w
    | Some _ =>
        (docs <~ get_documents L "product" (list_products_filter category q) ;;
         lift (map_result (to_product_out L) docs)) w
    end.

(** POST /products *)
Definition create_product (product : Product.t) : Handler string :=
  fun w =>
    match db w with
    | None => raise (HTTPException 500 "Database not configured") w
    | Some _ =>
        (new_id <~ create_document "product" (Product_dump product) ;;
         ret new_id) w
    end.

(** GET /orders *)
Definition list_orders : Handler (list OrderOut.t) :=
  fun w =>
    match db w with
    | None => ret [] w
    | Some _ =>
        (docs <~ get_documents L "order" [] ;;
         lift (map_result (to_order_out L) docs)) w
    end.

(** POST /orders *)
Definition create_order (order : Order.t) : Handler string :=
  fun w =>
    match db w with
    | None => raise (HTTPException 500 "Database not configured") w
    | Some _ =>
        (new_id <~ create_document "order" (Order_dump order) ;;
         ret new_id) w
    end.

(** The routes with a body: the body is validated against the handler's
    parameter type before the handler runs. *)
Definition post_products (body : dict) : Handler string :=
  product <~ lift (Product_validate L body) ;; create_product product.

Definition post_orders (body : dict) : Handler string :=
  order <~ lift (Order_validate L body) ;; create_order order.

(** [os.getenv(k)] taken as a condition: set and not empty. *)
Definition env_set (k : string) (w : World) : bool :=
  match find (fun kv => String.eqb k (fst kv)) (environ w) with
  | Some (_, v) => negb (String.eqb v "")
  | None => false
  end.

(** [try: body except Exception as e: handler(e)], over a response that the
    body updates in place: the handler sees the updates made before the
    exception. *)
Definition try_except
  (body : World -> result unit * dict * World)
  (handler : exn -> dict -> dict) (w : World) : dict * World :=
  match body w with
  | (Ok _, response, w') => (response, w')
  | (Raise e, response, w') => (handler e response, w')
  end.

(** GET /test *)
Definition test_database : Handler dict :=
  fun w =>
    let response : dict :=
      [ ("backend", VStr "✅ Running");
        ("database", VStr "❌ Not Available");
        ("database_url", VNone);
        ("database_name", VNone);
        ("connection_status", VStr "Not Connected");
        ("collections", VList []) ] in
    let '(response, w) :=
      try_except
        (fun w =>
           match db w with
           | Some d =>
               let response := set "database" (VStr "✅ Available") response in
               let response :=
                 set "database_url" (VStr "✅ Configured") response in
               let response :=
                 set "database_name"
                   (VStr (match db_name d with
                          | Some n => n
                          | None => "✅ Connected"
                          end)) response in
               let response :=
                 set "connection_status" (VStr "Connected") response in
               let '(response, w) :=
                 try_except
                   (fun w =>
                      match list_collection_names d w with
                      | (Ok collections, w) =>
                          let response :=
                            set "collections"
                              (VList (map VStr (firstn 10 collections)))
                              response in
                          let response :=
                            set "database" (VStr "✅ Connected & Working")
                              response in
                          (Ok tt, response, w)
                      | (Raise e, w) => (Raise e, response, w)
                      end)
                   (fun e response =>
                      set "database"
                        (VStr ("⚠️  Connected but Error: "
                                 ++ take 50 (exn_str L e))) response)
                   w in
               (Ok tt, response, w)
           | None =>
               (Ok tt,
                set "database" (VStr "⚠️  Available but not initialized")
                  response,
                w)
           end)
        (fun e response =>
           set "database" (VStr ("❌ Error: " ++ take 50 (exn_str L e)))
             response)
        w in
    let response :=
      set "database_url"
        (VStr (if env_set "DATABASE_URL" w then "✅ Set" else "❌ Not Set"))
        response in
    let response :=
      set "database_name"
        (VStr (if env_set "DATABASE_NAME" w then "✅ Set" else "❌ Not Set"))
        response in
    (Ok response, w).

End Handlers.

(* ------------------------------------------------------------------ *)
(** ** A concrete instance of the libraries

    Enough of the libraries to run the model on concrete inputs: numbers in
    strings are an optional sign and decimal digits; an e-mail address has
    one [@] between two non-empty parts without spaces and is kept as
    written; a regular expression is a sequence of atoms, where [.] matches
    any character but a line feed and any other character matches itself,
    and the option [i] ignores letter case. *)

Module Reference.

Definition str_to_int (s : string) : option Z :=
  option_map Z.of_int (NilZero.int_of_string s).

Definition str_to_float (s : string) : option Float.float :=
  option_map Float.of_Z (str_to_int s).

Fixpoint count_char (c : ascii) (s : string) : nat :=
  match s with
  | EmptyString => 0
  | String x s' => (if Ascii.eqb c x then 1 else 0) + count_char c s'
  end.

Fixpoint before_char (c : ascii) (s : string) : string :=
  match s with
  | EmptyString => EmptyString
  | String x s' => if Ascii.eqb c x then EmptyString else String x (before_char c s')
  end.

Definition email_syntax (s : string) : option string :=
  let local_part := before_char "@" s in
  if (count_char "@" s =? 1)%nat
     && (count_char " " s =? 0)%nat
     && (0 <? String.length local_part)%nat
     && (S (String.length local_part) <? String.length s)%nat
  then Some s else None.

Definition exn_text (e : exn) : string :=
  match e with
  | TypeError => "TypeError"
  | ValueError => "ValueError"
  | OverflowError => "OverflowError"
  | ValidationError => "ValidationError"
  | HTTPException _ detail => detail
  | StoreError msg => msg
  end.

Definition repr (v : value) : string :=
  match v with
  | VFloat _ => "<float>"
  | VList _ => "<list>"
  | VDict _ => "<dict>"
  | _ => ""
  end.

Inductive atom : Type :=
| Any
| Lit (c : ascii).

Fixpoint atoms (pattern : string) : list atom :=
  match pattern with
  | EmptyString => []
  | String c p' => (if Ascii.eqb c "." then Any else Lit c) :: atoms p'
  end.

Definition atom_matches (ignore_case : bool) (a : atom) (c : ascii) : bool :=
  match a with
  | Any => negb (Ascii.eqb c "010")
  | Lit x =>
      if ignore_case then Ascii.eqb (lower_ascii x) (lower_ascii c)
      else Ascii.eqb x c
  end.

Fixpoint matches_here (ignore_case : bool) (p : list atom) (text : string)
  : bool :=
  match p, text with
  | [], _ => true
  | a :: p', String c text' =>
      atom_matches ignore_case a c && matches_here ignore_case p' text'
  | _ :: _, EmptyString => false
  end.

Fixpoint search (ignore_case : bool) (p : list atom) (text : string) : bool :=
  matches_here ignore_case p text
  || match text with
     | EmptyString => false
     | String _ text' => search ignore_case p text'
     end.

Definition regex_search (pattern options text : string) : bool :=
  search (0 <? count_char "i" options)%nat (atoms pattern) text.

Definition lib : PyLib :=
  mkPyLib str_to_float str_to_int email_syntax repr exn_text regex_search.

End Reference.

(* ------------------------------------------------------------------ *)
(** ** Text containment *)

(** [prefix_of p t]: [t] starts with [p]. *)
Fixpoint prefix_of (p t : string) : bool :=
  match p, t with
  | EmptyString, _ => true
  | String a p', String b t' => Ascii.eqb a b && prefix_of p' t'
  | String _ _, EmptyString => false
  end.

(** [contains p t]: [p] occurs in [t] as a substring. *)
Fixpoint contains (p t : string) : bool :=
  prefix_of p t
  || match t with
     | EmptyString => false
     | String _ t' => contains p t'
     end.

(** [q] occurs in [t], letter case ignored. *)
Definition contains_ci (q t : string) : bool := contains (lower q) (lower t).

(* ------------------------------------------------------------------ *)
(** ** Sample inputs *)

Module Sample.

Definition unconfigured : World :=
  {| db := None; environ := []; calls := [] |}.

Definition lamp_document : dict :=
  [ ("_id", VObjectId "64f0c0ffee0000000000a001");
    ("title", VStr "Lamp");
    ("price", VInt 3);
    ("category", VStr "lighting") ].

Definition shop : Database :=
  {| db_name := Some "shop";
     db_collections := [("product", [lamp_document])];
     db_fault := None;
     db_next_id := 7 |}.

Definition configured : World :=
  {| db := Some shop; environ := [("DATABASE_URL", "mongodb://h")]; calls := [] |}.

Definition unreachable : World :=
  {| db := Some {| db_name := Some "shop";
                   db_collections := [];
                   db_fault :=
                     Some "localhost:27017: connection refused, timeout after 30s of server selection";
                   db_next_id := 0 |};
     environ := [];
     calls := [] |}.

Definition timed_out : World :=
  {| db := Some {| db_name := Some "shop";
                   db_collections := [];
                   db_fault :=
                     Some "Échec de la sélection du serveur : délai dépassé après 30000 ms";
                   db_next_id := 0 |};
     environ := [];
     calls := [] |}.

Definition product_payload : dict :=
  [ ("title", VStr "Lamp"); ("price", VInt 10); ("category", VStr "tools") ].

Definition untitled_payload : dict :=
  [ ("title", VStr ""); ("price", VInt 10); ("category", VStr "tools") ].

Definition product : Product.t :=
  Product.mk "Lamp" None (Float.of_Z 10) "tools" None true.

Definition item_payload (quantity : Z) : value :=
  VDict [ ("product_id", VStr "p1"); ("title", VStr "Lamp");
          ("price", VInt 5); ("quantity", VInt quantity) ].

Definition order_payload (items : list value) : dict :=
  [ ("customer_name", VStr "Ann");
    ("customer_email", VStr "ann@example.com");
    ("shipping_address", VStr "1 Road");
    ("items", VList items);
    ("subtotal", VInt 5);
    ("total", VInt 5) ].

Definition order : Order.t :=
  Order.mk "Ann" "ann@example.com" "1 Road" []
    (Float.of_Z 5) (NInt 0) (Float.of_Z 5) "pending".

Definition untitled_document : dict :=
  [ ("_id", VObjectId "64f0c0ffee0000000000a002");
    ("price", VInt 3);
    ("category", VStr "lighting") ].

Definition order_document (items : list value) : dict :=
  attach_id "64f0c0ffee0000000000b001" (order_payload items).

End Sample.

(* ------------------------------------------------------------------ *)
(** * Properties *)

(** ** Dictionaries *)

Lemma get_set_same (k : string) (v : value) (d : dict) :
  get k (set k v d) = Some v.
Proof.
  induction d as [|[k' v'] d IH]; simpl.
  - now rewrite String.eqb_refl.
  - destruct (String.eqb k k') eqn:E; simpl.
    + now rewrite String.eqb_refl.
    + now rewrite E.
Qed.

Lemma get_set_other (k k' : string) (v : value) (d : dict) :
  k <> k' -> get k' (set k v d) = get k' d.
Proof.
  intros Hne. induction d as [|[k0 v0] d IH]; simpl.
  - destruct (String.eqb_spec k' k); congruence.
  - destruct (String.eqb_spec k k0) as [->|Hk]; simpl.
    + destruct (String.eqb_spec k' k0); congruence.
    + now rewrite IH.
Qed.

Lemma required_set_other {A} (k k' : string) (v : value)
  (conv : value -> option A) (d : dict) :
  k <> k' -> required k' conv (set k v d) = required k' conv d.
Proof. intros H. unfold required. now rewrite get_set_other. Qed.

Lemma defaulted_set_other {A} (k k' : string) (v : value) (a : A)
  (conv : value -> option A) (d : dict) :
  k <> k' -> defaulted k' a conv (set k v d) = defaulted k' a conv d.
Proof. intros H. unfold defaulted. now rewrite get_set_other. Qed.

Lemma required_set_same {A} (k : string) (v : value)
  (conv : value -> option A) (d : dict) :
  required k conv (set k v d) = conv v.
Proof. unfold required. now rewrite get_set_same. Qed.

(** ** Reading the outcome of a validation *)

Lemma obind_Some {A B} (o : option A) (k : A -> option B) (b : B) :
  obind o k = Some b -> exists a, o = Some a /\ k a = Some b.
Proof. destruct o as [a|]; simpl; [eauto | discriminate]. Qed.

Lemma check_Some {A} (c : A -> bool) (o : option A) (a : A) :
  check c o = Some a -> o = Some a /\ c a = true.
Proof.
  destruct o as [x|]; simpl; [|discriminate].
  destruct (c x) eqn:E; [|discriminate].
  intros [= <-]. auto.
Qed.

Lemma validated_Ok {A} (o : option A) (a : A) :
  validated o = Ok a <-> o = Some a.
Proof.
  destruct o; simpl; split; intros H; inversion H; reflexivity.
Qed.

Lemma required_Some {A} (k : string) (conv : value -> option A) (d : dict)
  (a : A) :
  required k conv d = Some a -> exists v, get k d = Some v /\ conv v = Some a.
Proof. unfold required. destruct (get k d) as [v|]; [eauto | discriminate]. Qed.

Lemma as_str_Some (v : value) (s : string) : as_str v = Some s -> v = VStr s.
Proof. destruct v; simpl; congruence. Qed.

(** Split a validation that succeeded into the facts about its fields. *)
Ltac split_validation H :=
  repeat
    match type of H with
    | validated _ = Ok _ => apply validated_Ok in H
    | obind _ _ = Some _ =>
        let x := fresh "x" in
        let Hx := fresh "Hx" in
        apply obind_Some in H; destruct H as (x & Hx & H)
    end.

(* ------------------------------------------------------------------ *)
(** ** The store handle is not configured *)

(** C1: when the store handle [db] is [None], GET /products and GET /orders
    return the empty sequence and POST /products and POST /orders raise the
    HTTP error 500; in all four the state is left as it was, so the trace of
    store calls gains no entry: the store is not called. *)
Theorem unconfigured_store (L : PyLib) (w : World)
  (category q : option string) (product : Product.t) (order : Order.t) :
  db w = None ->
  list_products L category q w = (Ok [], w) /\
  list_orders L w = (Ok [], w) /\
  create_product product w
    = (Raise (HTTPException 500 "Database not configured"), w) /\
  create_order order w
    = (Raise (HTTPException 500 "Database not configured"), w).
Proof.
  intros Hdb.
  unfold list_products, list_orders, create_product, create_order.
  rewrite Hdb. repeat split; reflexivity.
Qed.

Lemma unconfigured_store_witness :
  db Sample.unconfigured = None /\
  (list_products Reference.lib (Some "tools") (Some "lamp") Sample.unconfigured
     = (Ok [], Sample.unconfigured) /\
   list_orders Reference.lib Sample.unconfigured
     = (Ok [], Sample.unconfigured) /\
   create_product Sample.product Sample.unconfigured
     = (Raise (HTTPException 500 "Database not configured"),
        Sample.unconfigured) /\
   create_order Sample.order Sample.unconfigured
     = (Raise (HTTPException 500 "Database not configured"),
        Sample.unconfigured)).
Proof.
  split; [reflexivity |].
  apply (unconfigured_store Reference.lib Sample.unconfigured
           (Some "tools") (Some "lamp") Sample.product Sample.order).
  reflexivity.
Defined.

(* ------------------------------------------------------------------ *)
(** ** The filter of GET /products *)

Lemma truthy_empty : truthy (Some "") = false.
Proof. reflexivity. Qed.

(** C10: an empty-string query parameter counts as absent.  With [category]
    the empty string the filter is the one built without a category, it holds
    no condition on the category, and the handler behaves as if the parameter
    had not been given; likewise for [q] and the title.  The parameters are
    tested for their truth value, which is false for the empty string. *)
Theorem empty_parameter_is_absent (L : PyLib) (category q : option string)
  (w : World) :
  truthy (Some "") = false /\
  list_products_filter (Some "") q = list_products_filter None q /\
  list_products_filter category (Some "") = list_products_filter category None /\
  get "category" (list_products_filter (Some "") q) = None /\
  get "title" (list_products_filter category (Some "")) = None /\
  list_products L (Some "") q w = list_products L None q w /\
  list_products L category (Some "") w = list_products L category None w /\
  (forall doc, matches L (list_products_filter (Some "") (Some "")) doc = true).
Proof.
  repeat split; try reflexivity.
  - unfold list_products_filter. rewrite truthy_empty. simpl.
    destruct (truthy q); reflexivity.
  - unfold list_products_filter. rewrite truthy_empty.
    destruct (truthy category); reflexivity.
Qed.

(* ------------------------------------------------------------------ *)
(** ** Product validation *)

Ltac other_fields :=
  repeat first
    [ rewrite required_set_same
    | rewrite required_set_other by discriminate
    | rewrite defaulted_set_other by discriminate ].

(** A payload with the empty string as title is accepted. *)
Lemma empty_title_validates :
  get "title" Sample.untitled_payload = Some (VStr "") /\
  Product_validate Reference.lib Sample.untitled_payload
    = Ok (Product.mk "" None (Float.of_Z 10) "tools" None true).
Proof. split; reflexivity. Qed.

(** C4, amended: Product validation requires the title to be present and to
    be a string, and puts no bound on its length: a payload without a title
    is rejected, an accepted payload holds its title as a string, and an
    accepted payload stays accepted, with the same other fields, when its
    title is replaced by the empty string. *)
Theorem title_required_any_length (L : PyLib) (d : dict) :
  (get "title" d = None -> Product_validate L d = Raise ValidationError) /\
  (forall p, Product_validate L d = Ok p ->
     get "title" d = Some (VStr (Product.title p)) /\
     Product_validate L (set "title" (VStr "") d)
       = Ok (Product.mk "" (Product.description p) (Product.price p)
               (Product.category p) (Product.image p) (Product.in_stock p))).
Proof.
  split.
  - intros H. unfold Product_validate, required at 1. now rewrite H.
  - intros p H. unfold Product_validate in H. split_validation H.
    injection H as <-. simpl. split.
    + apply required_Some in Hx as (v & Hv & Hs).
      apply as_str_Some in Hs. congruence.
    + unfold Product_validate. other_fields.
      rewrite Hx0, Hx1, Hx2, Hx3, Hx4. reflexivity.
Qed.

Lemma title_required_any_length_witness :
  Product_validate Reference.lib Sample.product_payload = Ok Sample.product /\
  get "title" Sample.product_payload = Some (VStr "Lamp") /\
  Product_validate Reference.lib
    (set "title" (VStr "") Sample.product_payload)
    = Ok (Product.mk "" None (Float.of_Z 10) "tools" None true).
Proof.
  split; [reflexivity |].
  apply (proj2 (title_required_any_length Reference.lib Sample.product_payload)
           Sample.product).
  reflexivity.
Defined.

(* ------------------------------------------------------------------ *)
(** ** Order validation *)

Lemma in_insert_document (name : string) (doc : dict)
  (cs : list (string * list dict)) :
  In doc (collection name (insert_document name doc cs)).
Proof.
  induction cs as [|[n docs] cs IH]; simpl.
  - rewrite String.eqb_refl. now left.
  - destruct (String.eqb name n) eqn:E; simpl; rewrite E.
    + apply in_or_app. right. now left.
    + exact IH.
Qed.

(** C8: Order validation puts no lower bound on the number of items.  A
    payload whose [items] is the empty sequence and whose other fields are
    valid is accepted, as an order without items.  POST /orders on it then
    succeeds when the store is configured and reachable: the handler calls
    the store's create once, with the fields of that order (its items the
    empty list), the store holds the document under a new identifier in the
    order collection, and the identifier's text is returned. *)
Theorem empty_items_accepted (L : PyLib) (d : dict)
  (name email address status : string) (subtotal total : Float.float)
  (tax : number) :
  get "items" d = Some (VList []) ->
  required "customer_name" as_str d = Some name ->
  required "customer_email" (as_email L) d = Some email ->
  required "shipping_address" as_str d = Some address ->
  check (ge_float Float.zero) (required "subtotal" (as_float L) d)
    = Some subtotal ->
  defaulted "tax" (NInt 0)
    (fun v => option_map NFloat (check (ge_float Float.zero) (as_float L v))) d
    = Some tax ->
  check (ge_float Float.zero) (required "total" (as_float L) d) = Some total ->
  defaulted "status" "pending" as_str d = Some status ->
  Order_validate L d
    = Ok (Order.mk name email address [] subtotal tax total status) /\
  (forall w store,
     db w = Some store -> db_fault store = None ->
     exists w1 store1,
       post_orders L d w = (Ok (oid_text (db_next_id store)), w1) /\
       calls w1
         = calls w
           ++ [CreateDocument "order"
                 (Order_dump
                    (Order.mk name email address [] subtotal tax total status))]
       /\
       db w1 = Some store1 /\
       In (attach_id (oid_text (db_next_id store))
             (Order_dump
                (Order.mk name email address [] subtotal tax total status)))
          (collection "order" (db_collections store1)) /\
       get "items"
         (Order_dump (Order.mk name email address [] subtotal tax total status))
         = Some (VList [])).
Proof.
  intros Hitems Hname Hemail Haddress Hsubtotal Htax Htotal Hstatus.
  assert (Hvalid : Order_validate L d
            = Ok (Order.mk name email address [] subtotal tax total status)).
  { unfold Order_validate.
    rewrite Hname, Hemail, Haddress, Hsubtotal, Htax, Htotal, Hstatus.
    unfold required at 1. rewrite Hitems. reflexivity. }
  split; [exact Hvalid |].
  intros w store Hdb Hfault.
  unfold post_orders, bindH, lift. rewrite Hvalid.
  unfold create_order. rewrite Hdb.
  unfold bindH, create_document. rewrite Hdb.
  destruct (db_fault store) as [msg|] eqn:Hf; [discriminate |].
  eexists _, _. split; [reflexivity |].
  split; [reflexivity |]. split; [reflexivity |].
  split; [apply in_insert_document | reflexivity].
Qed.

Lemma empty_items_accepted_witness :
  Order_validate Reference.lib (Sample.order_payload []) = Ok Sample.order /\
  exists w1 store1,
    post_orders Reference.lib (Sample.order_payload []) Sample.configured
      = (Ok "000000000000000000000007", w1) /\
    calls w1 = [CreateDocument "order" (Order_dump Sample.order)] /\
    db w1 = Some store1 /\
    In (attach_id "000000000000000000000007" (Order_dump Sample.order))
       (collection "order" (db_collections store1)).
Proof.
  destruct (empty_items_accepted Reference.lib (Sample.order_payload [])
              "Ann" "ann@example.com" "1 Road" "pending"
              (Float.of_Z 5) (Float.of_Z 5) (NInt 0))
    as [Hvalid Hpost]; try reflexivity.
  split; [exact Hvalid |].
  destruct (Hpost Sample.configured Sample.shop eq_refl eq_refl)
    as (w1 & store1 & Hrun & Hcalls & Hdb & Hin & _).
  exists w1, store1. exact (conj Hrun (conj Hcalls (conj Hdb Hin))).
Defined.

Lemma validated_cases {A} (o : option A) :
  (exists a, validated o = Ok a) \/ validated o = Raise ValidationError.
Proof. destruct o; simpl; eauto. Qed.

Lemma below_zero_not_ge (f : Float.float) :
  Float.ltb f Float.zero = true -> ge_float Float.zero f = false.
Proof.
  unfold ge_float, Float.ltb, Float.leb, Float.zero, SFltb, SFleb.
  destruct f as [[]|[]| |[] m e]; simpl; congruence.
Qed.

Lemma all_some_Forall2 {A B} (conv : A -> option B) (l : list A)
  (r : list B) :
  all_some (map conv l) = Some r <->
  Forall2 (fun a b => conv a = Some b) l r.
Proof.
  revert r. induction l as [|a l IH]; intros r; simpl.
  - split.
    + intros [= <-]. constructor.
    + intros H. inversion H. reflexivity.
  - destruct (conv a) as [b|] eqn:Ea.
    + destruct (all_some (map conv l)) as [r'|] eqn:Er; simpl.
      * split.
        -- intros [= <-]. constructor; [assumption | now apply IH].
        -- intros H. inversion H as [|? b' ? r'' Hb Hr]; subst.
           apply IH in Hr. congruence.
      * split; [discriminate |].
        intros H. inversion H as [|? b' ? r'' Hb Hr]; subst.
        apply IH in Hr. discriminate.
    + split; [discriminate |].
      intros H. inversion H; subst. congruence.
Qed.

(** The fields of an accepted item. *)
Lemma OrderItem_fields_Some (L : PyLib) (d : dict) (i : OrderItem.t) :
  OrderItem_fields L d = Some i ->
  required "product_id" as_str d = Some (OrderItem.product_id i) /\
  required "title" as_str d = Some (OrderItem.title i) /\
  required "price" (as_float L) d = Some (OrderItem.price i) /\
  ge_float Float.zero (OrderItem.price i) = true /\
  required "quantity" (as_int L) d = Some (OrderItem.quantity i) /\
  ge_int 1 (OrderItem.quantity i) = true /\
  defaulted "image" None (as_optional as_str) d = Some (OrderItem.image i).
Proof.
  intros H. unfold OrderItem_fields in H. split_validation H.
  injection H as <-. simpl.
  apply check_Some in Hx1 as [? ?]. apply check_Some in Hx2 as [? ?].
  repeat split; assumption.
Qed.

(** How the tax of an order is read: absent, it is the integer 0; present, it
    is the float the value converts to, which is not below 0. *)
Definition tax_read (L : PyLib) (d : dict) (tax : number) : Prop :=
  (get "tax" d = None /\ tax = NInt 0)
  \/ (exists v f,
        get "tax" d = Some v /\ as_float L v = Some f /\
        ge_float Float.zero f = true /\ tax = NFloat f).

Lemma tax_read_iff (L : PyLib) (d : dict) (tax : number) :
  defaulted "tax" (NInt 0)
    (fun v => option_map NFloat (check (ge_float Float.zero) (as_float L v))) d
    = Some tax
  <-> tax_read L d tax.
Proof.
  unfold defaulted, tax_read. destruct (get "tax" d) as [v|].
  - split.
    + intros H. right.
      destruct (check (ge_float Float.zero) (as_float L v)) as [f|] eqn:E;
        simpl in H; [|discriminate].
      injection H as <-. apply check_Some in E as [E1 E2].
      exists v, f. auto.
    + intros [[H _]|(v' & f & [= <-] & Hf & Hge & ->)]; [discriminate |].
      rewrite Hf. simpl. now rewrite Hge.
  - split.
    + intros [= <-]. now left.
    + intros [[_ ->]|(v' & f & H & _)]; [reflexivity | discriminate].
Qed.

(** The fields of an accepted order. *)
Lemma Order_validate_Ok (L : PyLib) (d : dict) (o : Order.t) :
  Order_validate L d = Ok o ->
  required "customer_name" as_str d = Some (Order.customer_name o) /\
  required "customer_email" (as_email L) d = Some (Order.customer_email o) /\
  required "shipping_address" as_str d = Some (Order.shipping_address o) /\
  required "items" (as_list (as_OrderItem L)) d = Some (Order.items o) /\
  (required "subtotal" (as_float L) d = Some (Order.subtotal o) /\
   ge_float Float.zero (Order.subtotal o) = true) /\
  tax_read L d (Order.tax o) /\
  (required "total" (as_float L) d = Some (Order.total o) /\
   ge_float Float.zero (Order.total o) = true) /\
  defaulted "status" "pending" as_str d = Some (Order.status o).
Proof.
  intros H. unfold Order_validate in H. split_validation H.
  injection H as <-. simpl.
  apply check_Some in Hx3. apply tax_read_iff in Hx4. apply check_Some in Hx5.
  repeat split; tauto.
Qed.

Lemma required_at {A} (k : string) (conv : value -> option A) (d : dict)
  (v : value) :
  get k d = Some v -> required k conv d = conv v.
Proof. intros H. unfold required. now rewrite H. Qed.

Lemma defaulted_at {A} (k : string) (a : A) (conv : value -> option A)
  (d : dict) (v : value) :
  get k d = Some v -> defaulted k a conv d = conv v.
Proof. intros H. unfold defaulted. now rewrite H. Qed.

Lemma Order_validate_cases (L : PyLib) (d : dict) :
  (exists o, Order_validate L d = Ok o)
  \/ Order_validate L d = Raise ValidationError.
Proof. apply validated_cases. Qed.

Lemma OrderItem_validate_cases (L : PyLib) (d : dict) :
  (exists i, OrderItem_validate L d = Ok i)
  \/ OrderItem_validate L d = Raise ValidationError.
Proof. apply validated_cases. Qed.

(** An item of an accepted order was accepted as an item. *)
Lemma Order_item_accepted (L : PyLib) (d : dict) (o : Order.t)
  (raw : list value) (item : dict) :
  Order_validate L d = Ok o ->
  get "items" d = Some (VList raw) ->
  In (VDict item) raw ->
  exists i, In i (Order.items o) /\ OrderItem_fields L item = Some i.
Proof.
  intros Hok Hitems Hin.
  apply Order_validate_Ok in Hok as (_ & _ & _ & Hi & _).
  rewrite (required_at _ _ _ _ Hitems) in Hi. simpl in Hi.
  apply all_some_Forall2 in Hi. clear Hitems.
  induction Hi as [|v i raw' its Hv _ IH]; [contradiction |].
  destruct Hin as [->|Hin].
  - exists i. split; [now left | exact Hv].
  - destruct (IH Hin) as (i' & Hi' & Hf). exists i'. split; [now right | exact Hf].
Qed.

Lemma negative_amount_unchecked (L : PyLib) (k : string) (d : dict)
  (v : value) (f g : Float.float) :
  get k d = Some v -> as_float L v = Some f ->
  Float.ltb f Float.zero = true ->
  required k (as_float L) d = Some g -> ge_float Float.zero g = true -> False.
Proof.
  intros Hget Hconv Hneg Hreq Hge.
  rewrite (required_at _ _ _ _ Hget), Hconv in Hreq. injection Hreq as <-.
  apply below_zero_not_ge in Hneg. congruence.
Qed.

(** An order payload without tax is accepted with the integer 0 as its tax:
    the declared default is kept as written and is not a float. *)
Lemma absent_tax_is_integer :
  get "tax" (Sample.order_payload []) = None /\
  Order_validate Reference.lib (Sample.order_payload []) = Ok Sample.order /\
  Order.tax Sample.order = NInt 0.
Proof. repeat split. Qed.

(** C3, amended: Order and OrderItem validation rejects a payload that holds
    a negative amount ([subtotal], [tax], [total], or the [price] of an
    item), an item whose [quantity] is below 1, or a [customer_email] that is
    not a well-formed address.  In an accepted order [subtotal] and [total]
    are floats that are not below 0; [tax] is a float that is not below 0
    when the payload gives one, and the integer 0, the default as declared,
    when the payload gives none. *)
Theorem order_constraints (L : PyLib) (d : dict) :
  (forall k v f,
     In k ["subtotal"; "tax"; "total"] ->
     get k d = Some v -> as_float L v = Some f ->
     Float.ltb f Float.zero = true ->
     Order_validate L d = Raise ValidationError) /\
  (forall raw item v f,
     get "items" d = Some (VList raw) -> In (VDict item) raw ->
     get "price" item = Some v -> as_float L v = Some f ->
     Float.ltb f Float.zero = true ->
     Order_validate L d = Raise ValidationError) /\
  (forall raw item v n,
     get "items" d = Some (VList raw) -> In (VDict item) raw ->
     get "quantity" item = Some v -> as_int L v = Some n -> (n < 1)%Z ->
     Order_validate L d = Raise ValidationError) /\
  (forall s,
     get "customer_email" d = Some (VStr s) -> email_syntax L s = None ->
     Order_validate L d = Raise ValidationError) /\
  (forall v f,
     get "price" d = Some v -> as_float L v = Some f ->
     Float.ltb f Float.zero = true ->
     OrderItem_validate L d = Raise ValidationError) /\
  (forall v n,
     get "quantity" d = Some v -> as_int L v = Some n -> (n < 1)%Z ->
     OrderItem_validate L d = Raise ValidationError) /\
  (forall o,
     Order_validate L d = Ok o ->
     Float.leb Float.zero (Order.subtotal o) = true /\
     Float.leb Float.zero (Order.total o) = true /\
     Float.leb Float.zero (number_float (Order.tax o)) = true /\
     (get "tax" d = None -> Order.tax o = NInt 0) /\
     (forall v,
        get "tax" d = Some v ->
        exists f, Order.tax o = NFloat f /\ as_float L v = Some f)).
Proof.
  repeat apply conj.
  - intros k v f Hk Hget Hconv Hneg.
    destruct (Order_validate_cases L d) as [[o Ho]|]; [exfalso | assumption].
    apply Order_validate_Ok in Ho
      as (_ & _ & _ & _ & [Hs Hs'] & Ht & [Hu Hu'] & _).
    simpl in Hk. destruct Hk as [<-|[<-|[<-|[]]]].
    + eapply negative_amount_unchecked; eauto.
    + destruct Ht as [[Ht _]|(v' & f' & Hv & Hf & Hge & _)]; [congruence |].
      rewrite Hget in Hv. injection Hv as <-.
      rewrite Hconv in Hf. injection Hf as <-.
      apply below_zero_not_ge in Hneg. congruence.
    + eapply negative_amount_unchecked; eauto.
  - intros raw item v f Hitems Hin Hget Hconv Hneg.
    destruct (Order_validate_cases L d) as [[o Ho]|]; [exfalso | assumption].
    destruct (Order_item_accepted _ _ _ _ _ Ho Hitems Hin) as (i & _ & Hi).
    apply OrderItem_fields_Some in Hi as (_ & _ & Hp & Hp' & _).
    eapply negative_amount_unchecked; eauto.
  - intros raw item v n Hitems Hin Hget Hconv Hlow.
    destruct (Order_validate_cases L d) as [[o Ho]|]; [exfalso | assumption].
    destruct (Order_item_accepted _ _ _ _ _ Ho Hitems Hin) as (i & _ & Hi).
    apply OrderItem_fields_Some in Hi as (_ & _ & _ & _ & Hq & Hq' & _).
    rewrite (required_at _ _ _ _ Hget), Hconv in Hq. injection Hq as Hq.
    unfold ge_int in Hq'. apply Z.leb_le in Hq'. lia.
  - intros s Hget Hbad.
    destruct (Order_validate_cases L d) as [[o Ho]|]; [exfalso | assumption].
    apply Order_validate_Ok in Ho as (_ & He & _).
    rewrite (required_at _ _ _ _ Hget) in He. simpl in He. congruence.
  - intros v f Hget Hconv Hneg.
    destruct (OrderItem_validate_cases L d) as [[i Hi]|]; [exfalso | assumption].
    apply validated_Ok in Hi.
    apply OrderItem_fields_Some in Hi as (_ & _ & Hp & Hp' & _).
    eapply negative_amount_unchecked; eauto.
  - intros v n Hget Hconv Hlow.
    destruct (OrderItem_validate_cases L d) as [[i Hi]|]; [exfalso | assumption].
    apply validated_Ok in Hi.
    apply OrderItem_fields_Some in Hi as (_ & _ & _ & _ & Hq & Hq' & _).
    rewrite (required_at _ _ _ _ Hget), Hconv in Hq. injection Hq as Hq.
    unfold ge_int in Hq'. apply Z.leb_le in Hq'. lia.
  - intros o Ho.
    apply Order_validate_Ok in Ho
      as (_ & _ & _ & _ & [_ Hs] & Ht & [_ Hu] & _).
    refine (conj Hs (conj Hu (conj _ (conj _ _)))).
    + destruct Ht as [[_ ->]|(v & f & _ & _ & Hge & ->)];
        [reflexivity | exact Hge].
    + intros Hnone.
      destruct Ht as [[_ ->]|(v & f & Hv & _)]; [reflexivity | congruence].
    + intros v Hv.
      destruct Ht as [[Hnone _]|(v' & f & Hv' & Hf & _ & ->)]; [congruence |].
      rewrite Hv in Hv'. injection Hv' as <-. eauto.
Qed.

Lemma order_constraints_witness :
  Order_validate Reference.lib (Sample.order_payload [Sample.item_payload 0])
    = Raise ValidationError /\
  (Order_validate Reference.lib (Sample.order_payload []) = Ok Sample.order /\
   Float.leb Float.zero (Order.subtotal Sample.order) = true /\
   Float.leb Float.zero (Order.total Sample.order) = true /\
   Order.tax Sample.order = NInt 0).
Proof.
  split.
  - apply (proj1 (proj2 (proj2
             (order_constraints Reference.lib
                (Sample.order_payload [Sample.item_payload 0]))))
             [Sample.item_payload 0]
             [ ("product_id", VStr "p1"); ("title", VStr "Lamp");
               ("price", VInt 5); ("quantity", VInt 0) ]
             (VInt 0) 0%Z).
    + reflexivity.
    + left. reflexivity.
    + reflexivity.
    + reflexivity.
    + lia.
  - split; [reflexivity |].
    destruct (proj2 (proj2 (proj2 (proj2 (proj2 (proj2
                (order_constraints Reference.lib (Sample.order_payload [])))))))
                Sample.order eq_refl) as (Hs & Hu & _ & Hd & _).
    exact (conj Hs (conj Hu (Hd eq_refl))).
Defined.

(* ------------------------------------------------------------------ *)
(** ** The mapper of products *)

(** What [to_product_out] returns on a document whose fields have the types
    of the output model. *)
Lemma to_product_out_success (L : PyLib) (doc : dict) (t c : string)
  (dsc img : option string) (f : Float.float) :
  get_none "title" doc = VStr t ->
  as_optional as_str (get_none "description" doc) = Some dsc ->
  py_float L (get_none "price" doc) = Ok f ->
  get_none "category" doc = VStr c ->
  as_optional as_str (get_none "image" doc) = Some img ->
  to_product_out L doc
    = Ok (ProductOut.mk (py_str L (get_none "_id" doc)) t dsc f c img
            (py_bool (get_default "in_stock" (VBool true) doc))).
Proof.
  intros Ht Hd Hp Hc Hi. unfold to_product_out.
  rewrite Hp. simpl. unfold ProductOut_init.
  rewrite Ht, Hd, Hc, Hi. reflexivity.
Qed.

Lemma get_none_at (k : string) (d : dict) (v : value) :
  get k d = Some v -> get_none k d = v.
Proof. intros H. unfold get_none, get_default. now rewrite H. Qed.

Lemma get_none_absent (k : string) (d : dict) :
  get k d = None -> get_none k d = VNone.
Proof. intros H. unfold get_none, get_default. now rewrite H. Qed.

(** C2: a payload that validates as a Product, stored under an identifier and
    mapped by [to_product_out], comes back with the title, description,
    price, category, image and in_stock of the validated record and with the
    identifier's text as id; and in_stock is true when the payload gave
    none. *)
Theorem product_round_trip (L : PyLib) (payload : dict) (p : Product.t)
  (oid : string) :
  Product_validate L payload = Ok p ->
  to_product_out L (attach_id oid (Product_dump p))
    = Ok (ProductOut.mk oid (Product.title p) (Product.description p)
            (Product.price p) (Product.category p) (Product.image p)
            (Product.in_stock p)) /\
  (get "in_stock" payload = None -> Product.in_stock p = true).
Proof.
  intros H. split.
  - destruct p as [t dsc f c img stock].
    rewrite (to_product_out_success L _ t c dsc img f);
      try reflexivity.
    + now destruct dsc.
    + now destruct img.
  - intros Habsent. unfold Product_validate in H. split_validation H.
    injection H as <-. simpl.
    unfold defaulted in Hx4. rewrite Habsent in Hx4. congruence.
Qed.

Lemma product_round_trip_witness :
  Product_validate Reference.lib Sample.product_payload = Ok Sample.product /\
  to_product_out Reference.lib
    (attach_id "64f0c0ffee0000000000a003" (Product_dump Sample.product))
    = Ok (ProductOut.mk "64f0c0ffee0000000000a003" "Lamp" None
            (Float.of_Z 10) "tools" None true) /\
  Product.in_stock Sample.product = true.
Proof.
  split; [reflexivity |].
  destruct (product_round_trip Reference.lib Sample.product_payload
              Sample.product "64f0c0ffee0000000000a003" eq_refl)
    as [Hout Hstock].
  exact (conj Hout (Hstock eq_refl)).
Defined.

(** A document without a title, whose price converts, fails in the output
    model's validation, not in [float]. *)
Lemma missing_title_is_validation_error :
  get "title" Sample.untitled_document = None /\
  to_product_out Reference.lib Sample.untitled_document
    = Raise ValidationError.
Proof. split; reflexivity. Qed.

(** C9, amended: [to_product_out] reads the fields with no fallback.  On a
    document without a price it raises a type error ([float] applied to
    [None]) whatever the other fields are; on a document whose price converts
    and whose title or category is missing, the construction of the output
    model rejects the [None] with a validation error.  A missing optional
    field is no error: a missing description or image reads as [None], a
    missing in_stock as true, and the document maps to an output record when
    title and category are strings and the price converts. *)
Theorem product_document_missing_fields (L : PyLib) (doc : dict) :
  (get "price" doc = None -> to_product_out L doc = Raise TypeError) /\
  (forall f,
     py_float L (get_none "price" doc) = Ok f ->
     get "title" doc = None \/ get "category" doc = None ->
     to_product_out L doc = Raise ValidationError) /\
  (forall t c f,
     get "title" doc = Some (VStr t) ->
     py_float L (get_none "price" doc) = Ok f ->
     get "category" doc = Some (VStr c) ->
     get "description" doc = None ->
     get "image" doc = None ->
     get "in_stock" doc = None ->
     to_product_out L doc
       = Ok (ProductOut.mk (py_str L (get_none "_id" doc)) t None f c None
               true)) /\
  (forall t c f dsc img,
     get "title" doc = Some (VStr t) ->
     py_float L (get_none "price" doc) = Ok f ->
     get "category" doc = Some (VStr c) ->
     as_optional as_str (get_none "description" doc) = Some dsc ->
     as_optional as_str (get_none "image" doc) = Some img ->
     exists out, to_product_out L doc = Ok out).
Proof.
  repeat apply conj.
  - intros H. unfold to_product_out.
    rewrite (get_none_absent _ _ H). reflexivity.
  - intros f Hp Hmissing. unfold to_product_out. rewrite Hp. simpl.
    unfold ProductOut_init.
    destruct Hmissing as [H|H]; rewrite (get_none_absent _ _ H); simpl.
    + reflexivity.
    + destruct (as_str (get_none "title" doc)); simpl; [|reflexivity].
      destruct (as_optional as_str (get_none "description" doc)); reflexivity.
  - intros t c f Ht Hp Hc Hd Hi Hs.
    rewrite (to_product_out_success L doc t c None None f).
    + unfold get_default. rewrite Hs. reflexivity.
    + now apply get_none_at.
    + now rewrite (get_none_absent _ _ Hd).
    + assumption.
    + now apply get_none_at.
    + now rewrite (get_none_absent _ _ Hi).
  - intros t c f dsc img Ht Hp Hc Hd Hi.
    eexists. apply (to_product_out_success L doc t c dsc img f);
      auto using get_none_at.
Qed.

Lemma product_document_missing_fields_witness :
  to_product_out Reference.lib
    [("_id", VObjectId "64f0c0ffee0000000000a004"); ("title", VStr "Lamp");
     ("category", VStr "lighting")]
    = Raise TypeError /\
  to_product_out Reference.lib Sample.untitled_document
    = Raise ValidationError /\
  to_product_out Reference.lib Sample.lamp_document
    = Ok (ProductOut.mk "64f0c0ffee0000000000a001" "Lamp" None (Float.of_Z 3)
            "lighting" None true).
Proof.
  repeat apply conj.
  - apply (proj1 (product_document_missing_fields Reference.lib _)).
    reflexivity.
  - apply (proj1 (proj2 (product_document_missing_fields Reference.lib _))
             (Float.of_Z 3)).
    + reflexivity.
    + left. reflexivity.
  - apply (proj1 (proj2 (proj2
             (product_document_missing_fields Reference.lib
                Sample.lamp_document)))
             "Lamp" "lighting" (Float.of_Z 3)); reflexivity.
Defined.

(* ------------------------------------------------------------------ *)
(** ** The mapper of orders *)

Lemma as_list_Some {A} (conv : value -> option A) (v : value) (r : list A) :
  as_list conv v = Some r <->
  exists raw, v = VList raw /\ Forall2 (fun x a => conv x = Some a) raw r.
Proof.
  split.
  - destruct v; simpl; try discriminate.
    intros H. apply all_some_Forall2 in H. eauto.
  - intros (raw & -> & H). simpl. now apply all_some_Forall2.
Qed.

Lemma py_float_zero (L : PyLib) : py_float L (VInt 0) = Ok Float.zero.
Proof. reflexivity. Qed.

(** When [to_order_out] returns, and what. *)
Lemma to_order_out_Ok (L : PyLib) (doc : dict) (out : OrderOut.t) :
  to_order_out L doc = Ok out <->
  OrderOut.id out = py_str L (get_none "_id" doc) /\
  get_none "customer_name" doc = VStr (OrderOut.customer_name out) /\
  get_none "customer_email" doc = VStr (OrderOut.customer_email out) /\
  get_none "shipping_address" doc = VStr (OrderOut.shipping_address out) /\
  as_list (as_OrderItem L) (get_default "items" (VList []) doc)
    = Some (OrderOut.items out) /\
  py_float L (get_default "subtotal" (VInt 0) doc)
    = Ok (OrderOut.subtotal out) /\
  py_float L (get_default "tax" (VInt 0) doc) = Ok (OrderOut.tax out) /\
  py_float L (get_default "total" (VInt 0) doc) = Ok (OrderOut.total out) /\
  get_default "status" (VStr "pending") doc = VStr (OrderOut.status out).
Proof.
  unfold to_order_out. split.
  - destruct (py_float L (get_default "subtotal" (VInt 0) doc)) as [s|];
      simpl; [|discriminate].
    destruct (py_float L (get_default "tax" (VInt 0) doc)) as [t|];
      simpl; [|discriminate].
    destruct (py_float L (get_default "total" (VInt 0) doc)) as [u|];
      simpl; [|discriminate].
    intros H. unfold OrderOut_init in H. split_validation H.
    injection H as <-. simpl in *.
    apply as_str_Some in Hx0, Hx1, Hx2, Hx7.
    repeat split; congruence.
  - destruct out as [i n e a its s t u st]. simpl.
    intros (-> & Hn & He & Ha & Hi & Hs & Ht & Hu & Hst).
    rewrite Hs, Ht, Hu. simpl. unfold OrderOut_init.
    rewrite Hn, He, Ha, Hi, Hst. reflexivity.
Qed.

(** A stored order with an item of quantity 0 is not mapped: the output
    model rejects the item. *)
Lemma invalid_item_fails_order_read :
  get "items" (Sample.order_document [Sample.item_payload 0])
    = Some (VList [Sample.item_payload 0]) /\
  to_order_out Reference.lib (Sample.order_document [Sample.item_payload 0])
    = Raise ValidationError.
Proof. split; reflexivity. Qed.

Lemma all_some_None {A B} (conv : A -> option B) (l : list A) (a : A) :
  In a l -> conv a = None -> all_some (map conv l) = None.
Proof.
  intros Hin Ha. induction l as [|x l IH]; [contradiction |].
  simpl. destruct Hin as [->|Hin].
  - now rewrite Ha.
  - destruct (conv x); [|reflexivity]. now rewrite (IH Hin).
Qed.

(** C5, amended: [to_order_out] returns an output record exactly when the
    document's customer name, e-mail and address are strings, its status,
    when present, is a string, its subtotal, tax and total, when present,
    convert to floats, and its items, when present, are a list whose every
    element reads as an OrderItem.  The record then holds the text of the
    identifier, those strings, the three amounts as floats (0 for an absent
    one), the status ("pending" for an absent one) and, in the stored order,
    the items as the OrderItem validation read them (none for absent items):
    the output model validates every item again when the document is read.
    On a document with an item that does not read as an OrderItem it raises:
    a validation error when the three amounts convert, and otherwise the
    exception of the first amount that does not. *)
Theorem order_document_to_output (L : PyLib) (doc : dict)
  (out : OrderOut.t) :
  (to_order_out L doc = Ok out <->
   OrderOut.id out = py_str L (get_none "_id" doc) /\
   get_none "customer_name" doc = VStr (OrderOut.customer_name out) /\
   get_none "customer_email" doc = VStr (OrderOut.customer_email out) /\
   get_none "shipping_address" doc = VStr (OrderOut.shipping_address out) /\
   (exists raw,
      get_default "items" (VList []) doc = VList raw /\
      Forall2 (fun v i => as_OrderItem L v = Some i) raw (OrderOut.items out)) /\
   py_float L (get_default "subtotal" (VInt 0) doc)
     = Ok (OrderOut.subtotal out) /\
   py_float L (get_default "tax" (VInt 0) doc) = Ok (OrderOut.tax out) /\
   py_float L (get_default "total" (VInt 0) doc) = Ok (OrderOut.total out) /\
   get_default "status" (VStr "pending") doc = VStr (OrderOut.status out)) /\
  (to_order_out L doc = Ok out ->
   (get "subtotal" doc = None -> OrderOut.subtotal out = Float.zero) /\
   (get "tax" doc = None -> OrderOut.tax out = Float.zero) /\
   (get "total" doc = None -> OrderOut.total out = Float.zero) /\
   (get "status" doc = None -> OrderOut.status out = "pending") /\
   (get "items" doc = None -> OrderOut.items out = [])) /\
  (forall raw v,
     get "items" doc = Some (VList raw) -> In v raw ->
     as_OrderItem L v = None ->
     (exists e, to_order_out L doc = Raise e) /\
     (forall s t u,
        py_float L (get_default "subtotal" (VInt 0) doc) = Ok s ->
        py_float L (get_default "tax" (VInt 0) doc) = Ok t ->
        py_float L (get_default "total" (VInt 0) doc) = Ok u ->
        to_order_out L doc = Raise ValidationError) /\
     (forall e,
        py_float L (get_default "subtotal" (VInt 0) doc) = Raise e ->
        to_order_out L doc = Raise e) /\
     (forall s e,
        py_float L (get_default "subtotal" (VInt 0) doc) = Ok s ->
        py_float L (get_default "tax" (VInt 0) doc) = Raise e ->
        to_order_out L doc = Raise e) /\
     (forall s t e,
        py_float L (get_default "subtotal" (VInt 0) doc) = Ok s ->
        py_float L (get_default "tax" (VInt 0) doc) = Ok t ->
        py_float L (get_default "total" (VInt 0) doc) = Raise e ->
        to_order_out L doc = Raise e)).
Proof.
  split; [| split].
  - rewrite to_order_out_Ok, as_list_Some. reflexivity.
  - intros H. apply to_order_out_Ok in H
      as (_ & _ & _ & _ & Hi & Hs & Ht & Hu & Hst).
    unfold get_default in *.
    repeat split; intros Habsent; rewrite Habsent in *.
    + rewrite py_float_zero in Hs. congruence.
    + rewrite py_float_zero in Ht. congruence.
    + rewrite py_float_zero in Hu. congruence.
    + congruence.
    + simpl in Hi. congruence.
  - intros raw v Hitems Hin Hbad.
    assert (Hnone : as_list (as_OrderItem L)
                      (get_default "items" (VList []) doc) = None).
    { unfold get_default. rewrite Hitems. simpl.
      eapply all_some_None; eauto. }
    refine (conj _ (conj _ (conj _ (conj _ _)))).
    + destruct (to_order_out L doc) as [o|e] eqn:E; [exfalso | eauto].
      apply to_order_out_Ok in E as (_ & _ & _ & _ & Hi & _). congruence.
    + intros s t u Hs Ht Hu. unfold to_order_out.
      rewrite Hs, Ht, Hu. simpl. unfold OrderOut_init. rewrite Hnone. simpl.
      destruct (as_str (get_none "customer_name" doc)); simpl;
        [|reflexivity].
      destruct (as_str (get_none "customer_email" doc)); simpl;
        [|reflexivity].
      destruct (as_str (get_none "shipping_address" doc)); reflexivity.
    + intros e He. unfold to_order_out. now rewrite He.
    + intros s e Hs He. unfold to_order_out. now rewrite Hs, He.
    + intros s t e Hs Ht He. unfold to_order_out. now rewrite Hs, Ht, He.
Qed.

Lemma order_document_to_output_witness :
  to_order_out Reference.lib (Sample.order_document [Sample.item_payload 2])
    = Ok (OrderOut.mk "64f0c0ffee0000000000b001" "Ann" "ann@example.com"
            "1 Road" [OrderItem.mk "p1" "Lamp" (Float.of_Z 5) 2 None]
            (Float.of_Z 5) Float.zero (Float.of_Z 5) "pending") /\
  to_order_out Reference.lib
    (Sample.order_document [Sample.item_payload 2; Sample.item_payload 0])
    = Raise ValidationError.
Proof.
  split.
  - apply (proj1 (order_document_to_output Reference.lib _ _)).
    repeat apply conj; try reflexivity.
    exists [Sample.item_payload 2]. split; [reflexivity |].
    repeat constructor.
  - destruct (proj2 (proj2 (order_document_to_output Reference.lib
                (Sample.order_document
                   [Sample.item_payload 2; Sample.item_payload 0])
                (OrderOut.mk "" "" "" "" [] Float.zero Float.zero Float.zero "")))
                [Sample.item_payload 2; Sample.item_payload 0]
                (Sample.item_payload 0)
                eq_refl (or_intror (or_introl eq_refl)) eq_refl)
      as (_ & Hval & _).
    exact (Hval (Float.of_Z 5) Float.zero (Float.of_Z 5)
             eq_refl eq_refl eq_refl).
Defined.

(* ------------------------------------------------------------------ *)
(** ** What the filter of GET /products selects *)

Lemma value_eqb_VStr (s : string) (v : value) :
  value_eqb (VStr s) v = true <-> v = VStr s.
Proof.
  destruct v; simpl; split; try discriminate.
  - intros H. apply String.eqb_eq in H. now subst.
  - intros [= ->]. apply String.eqb_refl.
Qed.

(** With [q = "."] the product titled "Lamp" is returned, although "." does
    not occur in its title. *)
Lemma dot_matches_lamp :
  fst (list_products Reference.lib None (Some ".") Sample.configured)
    = Ok [ProductOut.mk "64f0c0ffee0000000000a001" "Lamp" None (Float.of_Z 3)
            "lighting" None true] /\
  contains_ci "." "Lamp" = false.
Proof. split; reflexivity. Qed.

(** C6, amended: the filter GET /products builds selects, for a non-empty
    [category], only documents whose category field is exactly that string;
    for a non-empty [q], only documents whose title is a text that [q],
    taken as a regular expression with the option [i] (letter case ignored),
    matches somewhere; for both, the documents that satisfy both conditions.
    On a configured and reachable store the handler maps exactly the selected
    documents of the product collection, in stored order. *)
Theorem products_filter_selects (L : PyLib) (category q : option string)
  (doc : dict) :
  (matches L (list_products_filter category q) doc = true <->
   (truthy category = true ->
    get "category" doc = Some (VStr (param category))) /\
   (truthy q = true ->
    exists t, get "title" doc = Some (VStr t) /\
              regex_search L (param q) "i" t = true)) /\
  (forall w store,
     db w = Some store -> db_fault store = None ->
     fst (list_products L category q w)
       = map_result (to_product_out L)
           (filter (matches L (list_products_filter category q))
              (collection "product" (db_collections store)))).
Proof.
  split.
  - unfold list_products_filter, matches.
    destruct (truthy category), (truthy q); simpl.
    + rewrite !andb_true_r, andb_true_iff. split.
      * intros [Hc Ht]. split; intros _.
        -- destruct (get "category" doc) as [v|]; [|discriminate].
           apply value_eqb_VStr in Hc. now subst.
        -- destruct (get "title" doc) as [[]|]; try discriminate. eauto.
      * intros [Hc Ht]. rewrite (Hc eq_refl).
        destruct (Ht eq_refl) as (t & -> & Hr).
        simpl. split; [apply String.eqb_refl | exact Hr].
    + rewrite andb_true_r. split.
      * intros Hc. split; [intros _ | discriminate].
        destruct (get "category" doc) as [v|]; [|discriminate].
        apply value_eqb_VStr in Hc. now subst.
      * intros [Hc _]. rewrite (Hc eq_refl). simpl. apply String.eqb_refl.
    + rewrite andb_true_r. split.
      * intros Ht. split; [discriminate | intros _].
        destruct (get "title" doc) as [[]|]; try discriminate. eauto.
      * intros [_ Ht]. destruct (Ht eq_refl) as (t & -> & Hr). exact Hr.
    + split; [intros _; split; discriminate | reflexivity].
  - intros w store Hdb Hfault.
    unfold list_products. rewrite Hdb.
    unfold bindH, get_documents, lift. rewrite Hdb, Hfault. reflexivity.
Qed.

Lemma products_filter_selects_witness :
  matches Reference.lib (list_products_filter (Some "lighting") (Some "AM"))
    Sample.lamp_document = true /\
  fst (list_products Reference.lib (Some "lighting") (Some "AM")
         Sample.configured)
    = map_result (to_product_out Reference.lib)
        (filter
           (matches Reference.lib
              (list_products_filter (Some "lighting") (Some "AM")))
           (collection "product" (db_collections Sample.shop))).
Proof.
  destruct (products_filter_selects Reference.lib (Some "lighting")
              (Some "AM") Sample.lamp_document) as [Hsel Hlist].
  split.
  - apply Hsel. split; intros _.
    + reflexivity.
    + exists "Lamp". split; reflexivity.
  - apply (Hlist Sample.configured Sample.shop); reflexivity.
Defined.

(** In the concrete instance, a pattern without [.] is matched as a
    substring, letter case ignored. *)
Lemma reference_matches_here_literal (q t : string) :
  Reference.count_char "." q = 0 ->
  Reference.matches_here true (Reference.atoms q) t
    = prefix_of (lower q) (lower t).
Proof.
  revert t. induction q as [|c q IH]; intros t Hq.
  - reflexivity.
  - cbn [Reference.count_char Reference.atoms lower] in *.
    destruct (Ascii.eqb "." c) eqn:Ec; [discriminate |].
    rewrite Ascii.eqb_sym, Ec.
    destruct t as [|x t]; [reflexivity |].
    cbn [Reference.matches_here Reference.atom_matches lower prefix_of].
    now rewrite IH by exact Hq.
Qed.

Lemma reference_regex_literal (q t : string) :
  Reference.count_char "." q = 0 ->
  Reference.regex_search q "i" t = contains_ci q t.
Proof.
  intros Hq. unfold Reference.regex_search, contains_ci.
  change (Nat.ltb 0 (Reference.count_char "i" "i")) with true.
  induction t as [|x t IH];
    cbn [Reference.search contains lower];
    rewrite reference_matches_here_literal by assumption.
  - reflexivity.
  - now rewrite IH.
Qed.

(* ------------------------------------------------------------------ *)
(** ** The diagnostic route *)

Lemma take_length (n : nat) (s : string) : char_count (take n s) <= n.
Proof.
  revert n. induction s as [|c s IH]; intros n; simpl; [lia |].
  destruct (is_continuation c) eqn:E; simpl.
  - rewrite E. apply IH.
  - destruct n as [|n]; simpl; [lia |].
    rewrite E. specialize (IH n). lia.
Qed.

Lemma take_prefix (n : nat) (s : string) :
  exists rest, s = (take n s ++ rest)%string.
Proof.
  revert n. induction s as [|c s IH]; intros n; simpl.
  - now exists "".
  - destruct (is_continuation c).
    + destruct (IH n) as [rest Hrest]. exists rest. simpl. now f_equal.
    + destruct n as [|n].
      * now exists (String c s).
      * destruct (IH n) as [rest Hrest]. exists rest. simpl. now f_equal.
Qed.

(** C7: GET /test always returns a response.  With the store configured and
    reachable the response reports the status "Connected" and the first 10
    collection names at most; when the store call fails, the response keeps
    the status, lists no collection and reports the error in the [database]
    field as a message that holds the first 50 characters of the error's
    text (a prefix of the text, of at most 50 characters, whatever the
    number of bytes they take); nothing is raised. *)
Theorem test_database_reports (L : PyLib) (w : World) :
  exists response w',
    test_database L w = (Ok response, w') /\
    (forall store,
       db w = Some store -> db_fault store = None ->
       get "connection_status" response = Some (VStr "Connected") /\
       get "database" response = Some (VStr "✅ Connected & Working") /\
       get "collections" response
         = Some (VList (map VStr (firstn 10 (map fst (db_collections store)))))
       /\ length (firstn 10 (map fst (db_collections store))) <= 10) /\
    (forall store msg,
       db w = Some store -> db_fault store = Some msg ->
       get "connection_status" response = Some (VStr "Connected") /\
       get "database" response
         = Some (VStr ("⚠️  Connected but Error: " ++ take 50 msg)) /\
       char_count (take 50 msg) <= 50 /\
       (exists rest, msg = (take 50 msg ++ rest)%string) /\
       get "collections" response = Some (VList [])) /\
    (db w = None ->
     get "connection_status" response = Some (VStr "Not Connected") /\
     get "database" response
       = Some (VStr "⚠️  Available but not initialized")).
Proof.
  destruct w as [[store|] env trace].
  - destruct store as [name cs [msg|] next].
    + eexists _, _. split; [reflexivity |]. repeat apply conj.
      * intros store [= <-]. discriminate.
      * intros store msg' [= <-] [= <-].
        refine (conj eq_refl (conj eq_refl (conj _ (conj _ eq_refl)))).
        -- apply take_length.
        -- apply take_prefix.
      * discriminate.
    + eexists _, _. split; [reflexivity |]. repeat apply conj.
      * intros store [= <-] _.
        repeat split; try reflexivity. apply firstn_le_length.
      * intros store msg' [= <-]. discriminate.
      * discriminate.
  - eexists _, _. split; [reflexivity |]. repeat apply conj.
    + discriminate.
    + discriminate.
    + intros _. split; reflexivity.
Qed.

Lemma test_database_reports_witness :
  exists response w',
    test_database Reference.lib Sample.timed_out = (Ok response, w') /\
    get "connection_status" response = Some (VStr "Connected") /\
    get "database" response
      = Some (VStr "⚠️  Connected but Error: Échec de la sélection du serveur : délai dépassé a").
Proof.
  destruct (test_database_reports Reference.lib Sample.timed_out)
    as (response & w' & Hrun & _ & Hfail & _).
  exists response, w'. split; [exact Hrun |].
  destruct (Hfail _ _ eq_refl eq_refl) as (Hstatus & Hdb & _).
  exact (conj Hstatus Hdb).
Defined.

(* ------------------------------------------------------------------ *)
(** ** More sample inputs *)

Module Case.

Definition user_payload (age : value) : dict :=
  [ ("name", VStr "Ann"); ("email", VStr "ann@example.com"); ("age", age) ].

Definition user : User.t :=
  User.mk "Ann" "ann@example.com" None (Some 30%Z) true.

Definition cheap_payload : dict :=
  [ ("title", VStr "Lamp"); ("price", VInt (-1)); ("category", VStr "tools") ].

Definition full_order_payload : dict :=
  Sample.order_payload [Sample.item_payload 2; Sample.item_payload 1].

Definition full_order : Order.t :=
  Order.mk "Ann" "ann@example.com" "1 Road"
    [ OrderItem.mk "p1" "Lamp" (Float.of_Z 5) 2 None;
      OrderItem.mk "p1" "Lamp" (Float.of_Z 5) 1 None ]
    (Float.of_Z 5) (NInt 0) (Float.of_Z 5) "pending".

Definition minus_one : Float.float := Eval vm_compute in Float.of_Z (-1).

Definition spoiled_store : Database :=
  {| db_name := Some "shop";
     db_collections :=
       [ ("product", [Sample.lamp_document; Sample.untitled_document]);
         ("order", [Sample.order_document [Sample.item_payload 0]]) ];
     db_fault := None;
     db_next_id := 3 |}.

Definition spoiled : World :=
  {| db := Some spoiled_store; environ := []; calls := [] |}.

Definition half_set : World :=
  {| db := None;
     environ := [("DATABASE_URL", "mongodb://h"); ("DATABASE_NAME", "")];
     calls := [] |}.

Definition refused : World :=
  {| db := Some {| db_name := None;
                   db_collections := [];
                   db_fault := Some "éééééééééééééééééééééééééééééé";
                   db_next_id := 0 |};
     environ := [];
     calls := [] |}.

End Case.

(* ------------------------------------------------------------------ *)
(** * Further properties of the schemas *)

Lemma as_optional_Some {A} (conv : value -> option A) (v : value)
  (o : option A) :
  as_optional conv v = Some o ->
  (v = VNone /\ o = None) \/ (exists a, o = Some a /\ conv v = Some a).
Proof.
  destruct v; simpl;
    try (destruct (conv _) as [a|] eqn:E; simpl; [|discriminate];
         intros [= <-]; right; eauto).
  intros [= <-]. now left.
Qed.

Lemma defaulted_absent {A} (k : string) (a : A) (conv : value -> option A)
  (d : dict) (x : A) :
  get k d = None -> defaulted k a conv d = Some x -> x = a.
Proof. intros H. unfold defaulted. rewrite H. congruence. Qed.

Lemma required_absent {A} (k : string) (conv : value -> option A) (d : dict) :
  get k d = None -> required k conv d = None.
Proof. intros H. unfold required. now rewrite H. Qed.

Lemma User_validate_cases (L : PyLib) (d : dict) :
  (exists u, User_validate L d = Ok u)
  \/ User_validate L d = Raise ValidationError.
Proof. apply validated_cases. Qed.

(** The fields of an accepted user. *)
Lemma User_validate_Ok (L : PyLib) (d : dict) (u : User.t) :
  User_validate L d = Ok u ->
  required "name" as_str d = Some (User.name u) /\
  required "email" (as_email L) d = Some (User.email u) /\
  defaulted "address" None (as_optional as_str) d = Some (User.address u) /\
  defaulted "age" None
    (as_optional
       (fun v => check (fun a => ge_int 0 a && le_int 120 a) (as_int L v))) d
    = Some (User.age u) /\
  defaulted "is_active" true as_bool d = Some (User.is_active u).
Proof.
  intros H. unfold User_validate in H. split_validation H.
  injection H as <-. simpl. repeat split; assumption.
Qed.

(** User validation: the age of an accepted user, when it has one, lies
    between 0 and 120; a payload whose age reads as an integer outside these
    bounds is rejected; an absent age or address is [None] and an absent
    is_active is true; a payload without name or e-mail is rejected. *)
Theorem user_constraints (L : PyLib) (d : dict) :
  (forall u,
     User_validate L d = Ok u ->
     (forall a, User.age u = Some a -> (0 <= a <= 120)%Z) /\
     (get "age" d = None -> User.age u = None) /\
     (get "address" d = None -> User.address u = None) /\
     (get "is_active" d = None -> User.is_active u = true)) /\
  (forall v a,
     get "age" d = Some v -> as_int L v = Some a ->
     (a < 0 \/ 120 < a)%Z ->
     User_validate L d = Raise ValidationError) /\
  (get "name" d = None \/ get "email" d = None ->
   User_validate L d = Raise ValidationError).
Proof.
  repeat apply conj.
  - intros u Hu.
    apply User_validate_Ok in Hu as (_ & _ & Haddr & Hage & Hact).
    refine (conj _ (conj _ (conj _ _))).
    + intros a Ha. rewrite Ha in Hage. unfold defaulted in Hage.
      destruct (get "age" d) as [v|]; [|discriminate].
      apply as_optional_Some in Hage as [[_ ?]|(a' & [= <-] & Hc)];
        [discriminate |].
      apply check_Some in Hc as [_ Hc].
      apply andb_true_iff in Hc as [Hlo Hhi].
      unfold ge_int in Hlo. unfold le_int in Hhi.
      apply Z.leb_le in Hlo. apply Z.leb_le in Hhi. lia.
    + intros Habs. apply (defaulted_absent _ _ _ _ _ Habs Hage).
    + intros Habs. apply (defaulted_absent _ _ _ _ _ Habs Haddr).
    + intros Habs. apply (defaulted_absent _ _ _ _ _ Habs Hact).
  - intros v a Hget Hconv Hout.
    destruct (User_validate_cases L d) as [[u Hu]|]; [exfalso | assumption].
    apply User_validate_Ok in Hu as (_ & _ & _ & Hage & _).
    rewrite (defaulted_at _ _ _ _ _ Hget) in Hage.
    apply as_optional_Some in Hage as [[-> _]|(a' & _ & Hc)];
      [discriminate |].
    rewrite Hconv in Hc. apply check_Some in Hc as [[= <-] Hc].
    apply andb_true_iff in Hc as [Hlo Hhi].
    unfold ge_int in Hlo. unfold le_int in Hhi.
    apply Z.leb_le in Hlo. apply Z.leb_le in Hhi. lia.
  - intros Hmissing.
    destruct (User_validate_cases L d) as [[u Hu]|]; [exfalso | assumption].
    apply User_validate_Ok in Hu as (Hn & He & _).
    destruct Hmissing as [H|H];
      [rewrite (required_absent _ _ _ H) in Hn
      |rewrite (required_absent _ _ _ H) in He]; discriminate.
Qed.

Lemma user_constraints_witness :
  User_validate Reference.lib (Case.user_payload (VInt 130))
    = Raise ValidationError /\
  (User_validate Reference.lib (Case.user_payload (VInt 30)) = Ok Case.user /\
   (0 <= 30 <= 120)%Z).
Proof.
  split.
  - apply (proj1 (proj2 (user_constraints Reference.lib
                           (Case.user_payload (VInt 130))))
             (VInt 130) 130%Z); [reflexivity | reflexivity | lia].
  - split; [reflexivity |].
    apply (proj1 (proj1 (user_constraints Reference.lib
                           (Case.user_payload (VInt 30)))
                    Case.user eq_refl) 30%Z).
    reflexivity.
Defined.

Lemma Product_validate_cases (L : PyLib) (d : dict) :
  (exists p, Product_validate L d = Ok p)
  \/ Product_validate L d = Raise ValidationError.
Proof. apply validated_cases. Qed.

(** The fields of an accepted product. *)
Lemma Product_validate_Ok (L : PyLib) (d : dict) (p : Product.t) :
  Product_validate L d = Ok p ->
  required "title" as_str d = Some (Product.title p) /\
  defaulted "description" None (as_optional as_str) d
    = Some (Product.description p) /\
  (required "price" (as_float L) d = Some (Product.price p) /\
   ge_float Float.zero (Product.price p) = true) /\
  required "category" as_str d = Some (Product.category p) /\
  defaulted "image" None (as_optional as_str) d = Some (Product.image p) /\
  defaulted "in_stock" true as_bool d = Some (Product.in_stock p).
Proof.
  intros H. unfold Product_validate in H. split_validation H.
  injection H as <-. simpl. apply check_Some in Hx1.
  repeat split; tauto.
Qed.

(** Product validation: a payload without title, price or category is
    rejected, and so is one whose price reads as a number below 0; the price
    of an accepted product is not below 0, and an absent description or image
    is [None]. *)
Theorem product_constraints (L : PyLib) (d : dict) :
  (forall k,
     In k ["title"; "price"; "category"] -> get k d = None ->
     Product_validate L d = Raise ValidationError) /\
  (forall v f,
     get "price" d = Some v -> as_float L v = Some f ->
     Float.ltb f Float.zero = true ->
     Product_validate L d = Raise ValidationError) /\
  (forall p,
     Product_validate L d = Ok p ->
     Float.leb Float.zero (Product.price p) = true /\
     (get "description" d = None -> Product.description p = None) /\
     (get "image" d = None -> Product.image p = None)).
Proof.
  repeat apply conj.
  - intros k Hk Habs.
    destruct (Product_validate_cases L d) as [[p Hp]|]; [exfalso | assumption].
    apply Product_validate_Ok in Hp as (Ht & _ & [Hpr _] & Hc & _).
    simpl in Hk. destruct Hk as [<-|[<-|[<-|[]]]];
      [rewrite (required_absent _ _ _ Habs) in Ht
      |rewrite (required_absent _ _ _ Habs) in Hpr
      |rewrite (required_absent _ _ _ Habs) in Hc]; discriminate.
  - intros v f Hget Hconv Hneg.
    destruct (Product_validate_cases L d) as [[p Hp]|]; [exfalso | assumption].
    apply Product_validate_Ok in Hp as (_ & _ & [Hpr Hge] & _).
    eapply negative_amount_unchecked; eauto.
  - intros p Hp.
    apply Product_validate_Ok in Hp as (_ & Hd & [_ Hge] & _ & Hi & _).
    refine (conj Hge (conj _ _)); intros Habs.
    + apply (defaulted_absent _ _ _ _ _ Habs Hd).
    + apply (defaulted_absent _ _ _ _ _ Habs Hi).
Qed.

Lemma product_constraints_witness :
  Product_validate Reference.lib Case.cheap_payload = Raise ValidationError /\
  Float.leb Float.zero (Product.price Sample.product) = true.
Proof.
  split.
  - apply (proj1 (proj2 (product_constraints Reference.lib Case.cheap_payload))
             (VInt (-1)) Case.minus_one); reflexivity.
  - apply (proj2 (proj2 (product_constraints Reference.lib
                           Sample.product_payload)) Sample.product eq_refl).
Defined.

(** Order validation: a payload without customer name, e-mail, address,
    items, subtotal or total is rejected.  In an accepted order the status is
    the payload's string, or "pending" when the payload gives none, and the
    e-mail kept is the address as the e-mail library normalised it. *)
Theorem order_required_and_defaults (L : PyLib) (d : dict) :
  (forall k,
     In k ["customer_name"; "customer_email"; "shipping_address"; "items";
           "subtotal"; "total"] ->
     get k d = None ->
     Order_validate L d = Raise ValidationError) /\
  (forall o,
     Order_validate L d = Ok o ->
     (get "status" d = None -> Order.status o = "pending") /\
     (forall s, get "status" d = Some (VStr s) -> Order.status o = s) /\
     (exists raw,
        get "customer_email" d = Some (VStr raw) /\
        email_syntax L raw = Some (Order.customer_email o))).
Proof.
  split.
  - intros k Hk Habs.
    destruct (Order_validate_cases L d) as [[o Ho]|]; [exfalso | assumption].
    apply Order_validate_Ok in Ho
      as (Hn & He & Ha & Hi & [Hs _] & _ & [Hu _] & _).
    simpl in Hk. destruct Hk as [<-|[<-|[<-|[<-|[<-|[<-|[]]]]]]];
      [rewrite (required_absent _ _ _ Habs) in Hn
      |rewrite (required_absent _ _ _ Habs) in He
      |rewrite (required_absent _ _ _ Habs) in Ha
      |rewrite (required_absent _ _ _ Habs) in Hi
      |rewrite (required_absent _ _ _ Habs) in Hs
      |rewrite (required_absent _ _ _ Habs) in Hu]; discriminate.
  - intros o Ho.
    apply Order_validate_Ok in Ho as (_ & He & _ & _ & _ & _ & _ & Hst).
    refine (conj _ (conj _ _)).
    + intros Habs. apply (defaulted_absent _ _ _ _ _ Habs Hst).
    + intros s Hs. rewrite (defaulted_at _ _ _ _ _ Hs) in Hst.
      simpl in Hst. congruence.
    + apply required_Some in He as (v & Hv & Hm).
      destruct v; simpl in Hm; try discriminate. eauto.
Qed.

Lemma order_required_and_defaults_witness :
  Order_validate Reference.lib
    [("customer_name", VStr "Ann"); ("customer_email", VStr "ann@example.com")]
    = Raise ValidationError /\
  Order.status Sample.order = "pending".
Proof.
  split.
  - apply (proj1 (order_required_and_defaults Reference.lib _) "items").
    + simpl. tauto.
    + reflexivity.
  - apply (proj1 (proj2 (order_required_and_defaults Reference.lib
                           (Sample.order_payload [])) Sample.order eq_refl)).
    reflexivity.
Defined.

Lemma as_OrderItem_Some (L : PyLib) (v : value) (i : OrderItem.t) :
  as_OrderItem L v = Some i ->
  exists fields, v = VDict fields /\ OrderItem_validate L fields = Ok i.
Proof.
  destruct v; simpl; try discriminate.
  intros H. eexists. split; [reflexivity |].
  unfold OrderItem_validate. now rewrite H.
Qed.

Definition item_in_bounds (i : OrderItem.t) : Prop :=
  Float.leb Float.zero (OrderItem.price i) = true /\
  (1 <= OrderItem.quantity i)%Z.

Lemma accepted_item_in_bounds (L : PyLib) (fields : dict) (i : OrderItem.t) :
  OrderItem_fields L fields = Some i -> item_in_bounds i.
Proof.
  intros H. apply OrderItem_fields_Some in H as (_ & _ & _ & Hp & _ & Hq & _).
  split; [exact Hp |]. unfold ge_int in Hq. now apply Z.leb_le.
Qed.

Lemma accepted_items (L : PyLib) (d : dict) (o : Order.t) :
  Order_validate L d = Ok o ->
  exists raw,
    get "items" d = Some (VList raw) /\
    Forall2 (fun v i => as_OrderItem L v = Some i) raw (Order.items o).
Proof.
  intros Ho. apply Order_validate_Ok in Ho as (_ & _ & _ & Hi & _).
  apply required_Some in Hi as (v & Hv & Hl).
  apply as_list_Some in Hl as (raw & -> & Hall). eauto.
Qed.

Lemma accepted_items_in_bounds (L : PyLib) (d : dict) (o : Order.t) :
  Order_validate L d = Ok o -> Forall item_in_bounds (Order.items o).
Proof.
  intros Ho. destruct (accepted_items L d o Ho) as (raw & _ & Hall).
  induction Hall as [|v i raw its Hv _ IH]; constructor; [|exact IH].
  destruct v; simpl in Hv; try discriminate.
  eapply accepted_item_in_bounds; eauto.
Qed.

(** Order validation keeps the items: an accepted order has as many items as
    the payload, in the payload's order, each one the OrderItem read from the
    dictionary at its position, with a price not below 0 and a quantity of at
    least 1. *)
Theorem order_items_preserved (L : PyLib) (d : dict) (o : Order.t) :
  Order_validate L d = Ok o ->
  exists raw,
    get "items" d = Some (VList raw) /\
    length (Order.items o) = length raw /\
    Forall2
      (fun v i =>
         exists fields, v = VDict fields /\ OrderItem_validate L fields = Ok i)
      raw (Order.items o) /\
    Forall item_in_bounds (Order.items o).
Proof.
  intros Ho. destruct (accepted_items L d o Ho) as (raw & Hraw & Hall).
  exists raw. split; [exact Hraw |].
  split; [symmetry; eapply Forall2_length; exact Hall |].
  split; [| now apply (accepted_items_in_bounds L d)].
  clear Hraw Ho. induction Hall as [|v i raw its Hv _ IH]; constructor.
  - now apply as_OrderItem_Some.
  - exact IH.
Qed.

Lemma order_items_preserved_witness :
  Order_validate Reference.lib Case.full_order_payload = Ok Case.full_order /\
  exists raw,
    get "items" Case.full_order_payload = Some (VList raw) /\
    length (Order.items Case.full_order) = length raw.
Proof.
  split; [reflexivity |].
  destruct (order_items_preserved Reference.lib Case.full_order_payload
              Case.full_order eq_refl) as (raw & Hraw & Hlen & _).
  exists raw. exact (conj Hraw Hlen).
Defined.

(* ------------------------------------------------------------------ *)
(** * Further properties of the mappers *)

(** An item within its bounds is read back from its own fields. *)
Lemma OrderItem_dump_read (L : PyLib) (i : OrderItem.t) :
  item_in_bounds i -> as_OrderItem L (VDict (OrderItem_dump i)) = Some i.
Proof.
  destruct i as [pid t f q img]. intros [Hp Hq]. simpl in Hp, Hq.
  apply Z.leb_le in Hq.
  unfold as_OrderItem, OrderItem_fields, OrderItem_dump, required, defaulted,
    check, ge_float, ge_int.
  simpl. rewrite Hp, Hq. now destruct img.
Qed.

Lemma items_dump_read (L : PyLib) (its : list OrderItem.t) :
  Forall item_in_bounds its ->
  as_list (as_OrderItem L)
    (VList (map (fun i => VDict (OrderItem_dump i)) its)) = Some its.
Proof.
  intros H. simpl. apply all_some_Forall2.
  induction H as [|i its Hi _ IH]; simpl; constructor.
  - now apply OrderItem_dump_read.
  - exact IH.
Qed.

(** An order whose items are within their bounds is read back from its own
    fields. *)
Lemma to_order_out_of_dump (L : PyLib) (o : Order.t) (oid : string) :
  Forall item_in_bounds (Order.items o) ->
  py_float L (number_value (Order.tax o)) = Ok (number_float (Order.tax o)) ->
  to_order_out L (attach_id oid (Order_dump o))
    = Ok (OrderOut.mk oid (Order.customer_name o) (Order.customer_email o)
            (Order.shipping_address o) (Order.items o) (Order.subtotal o)
            (number_float (Order.tax o)) (Order.total o) (Order.status o)).
Proof.
  intros Hb Htax. apply to_order_out_Ok. destruct o as [n e a its s t u st].
  simpl in *. repeat split; try reflexivity.
  - exact (items_dump_read L its Hb).
  - exact Htax.
Qed.

(** The tax of an accepted order converts to the float it denotes. *)
Lemma accepted_tax_converts (L : PyLib) (d : dict) (o : Order.t) :
  Order_validate L d = Ok o ->
  py_float L (number_value (Order.tax o)) = Ok (number_float (Order.tax o)).
Proof.
  intros Ho. apply Order_validate_Ok in Ho as (_ & _ & _ & _ & _ & Ht & _).
  destruct Ht as [[_ ->]|(v & f & _ & _ & _ & ->)]; reflexivity.
Qed.

(** A product is read back from its own fields. *)
Lemma to_product_out_of_dump (L : PyLib) (p : Product.t) (oid : string) :
  to_product_out L (attach_id oid (Product_dump p))
    = Ok (ProductOut.mk oid (Product.title p) (Product.description p)
            (Product.price p) (Product.category p) (Product.image p)
            (Product.in_stock p)).
Proof.
  destruct p as [t dsc f c img stock].
  rewrite (to_product_out_success L _ t c dsc img f); try reflexivity.
  - now destruct dsc.
  - now destruct img.
Qed.

(** An accepted order, stored under an identifier and mapped by
    [to_order_out], comes back with the same customer name, e-mail, address,
    items, amounts and status, and with the identifier's text as id (the tax
    as the float it denotes: 0.0 for the default 0): the validation of the
    items on read accepts every item that was accepted on write and returns
    it unchanged. *)
Theorem order_round_trip (L : PyLib) (payload : dict) (o : Order.t)
  (oid : string) :
  Order_validate L payload = Ok o ->
  to_order_out L (attach_id oid (Order_dump o))
    = Ok (OrderOut.mk oid (Order.customer_name o) (Order.customer_email o)
            (Order.shipping_address o) (Order.items o) (Order.subtotal o)
            (number_float (Order.tax o)) (Order.total o) (Order.status o)).
Proof.
  intros Ho.
  apply to_order_out_of_dump.
  - exact (accepted_items_in_bounds L payload o Ho).
  - exact (accepted_tax_converts L payload o Ho).
Qed.

Lemma order_round_trip_witness :
  Order_validate Reference.lib Case.full_order_payload = Ok Case.full_order /\
  to_order_out Reference.lib
    (attach_id "64f0c0ffee0000000000b002" (Order_dump Case.full_order))
    = Ok (OrderOut.mk "64f0c0ffee0000000000b002" "Ann" "ann@example.com"
            "1 Road" (Order.items Case.full_order) (Float.of_Z 5)
            (Float.of_Z 0) (Float.of_Z 5) "pending").
Proof.
  split; [reflexivity |].
  exact (order_round_trip Reference.lib Case.full_order_payload
           Case.full_order "64f0c0ffee0000000000b002" eq_refl).
Defined.

Lemma get_default_set_same (k : string) (a v : value) (d : dict) :
  get_default k a (set k v d) = v.
Proof. unfold get_default. now rewrite get_set_same. Qed.

Lemma get_default_set_other (k k' : string) (a v : value) (d : dict) :
  k <> k' -> get_default k' a (set k v d) = get_default k' a d.
Proof. intros H. unfold get_default. now rewrite get_set_other. Qed.

Ltac other_keys :=
  unfold get_none;
  repeat first
    [ rewrite get_default_set_same
    | rewrite get_default_set_other by discriminate ].

(** When [to_product_out] returns, and what. *)
Lemma to_product_out_Ok (L : PyLib) (doc : dict) (out : ProductOut.t) :
  to_product_out L doc = Ok out <->
  ProductOut.id out = py_str L (get_none "_id" doc) /\
  get_none "title" doc = VStr (ProductOut.title out) /\
  as_optional as_str (get_none "description" doc)
    = Some (ProductOut.description out) /\
  py_float L (get_none "price" doc) = Ok (ProductOut.price out) /\
  get_none "category" doc = VStr (ProductOut.category out) /\
  as_optional as_str (get_none "image" doc) = Some (ProductOut.image out) /\
  ProductOut.in_stock out = py_bool (get_default "in_stock" (VBool true) doc).
Proof.
  split.
  - unfold to_product_out.
    destruct (py_float L (get_none "price" doc)) as [f|]; simpl;
      [|discriminate].
    intros H. unfold ProductOut_init in H. split_validation H.
    injection H as <-. simpl in *.
    apply as_str_Some in Hx0, Hx3.
    repeat split; congruence.
  - destruct out as [i t dsc f c img stock]. simpl.
    intros (-> & Ht & Hd & Hp & Hc & Hi & ->).
    now apply to_product_out_success.
Qed.

(** On read the price of a product is not checked against a bound: a
    document that maps still maps when its price is replaced by any float,
    negative ones included, and the output then carries that float. *)
Theorem product_read_keeps_any_price (L : PyLib) (doc : dict)
  (out : ProductOut.t) (f : Float.float) :
  to_product_out L doc = Ok out ->
  to_product_out L (set "price" (VFloat f) doc)
    = Ok (ProductOut.mk (ProductOut.id out) (ProductOut.title out)
            (ProductOut.description out) f (ProductOut.category out)
            (ProductOut.image out) (ProductOut.in_stock out)).
Proof.
  intros H. apply to_product_out_Ok in H as (Hid & Ht & Hd & _ & Hc & Hi & Hs).
  apply to_product_out_Ok. simpl. other_keys.
  repeat split; assumption.
Qed.

Lemma product_read_keeps_any_price_witness :
  to_product_out Reference.lib
    (set "price" (VFloat Case.minus_one) Sample.lamp_document)
    = Ok (ProductOut.mk "64f0c0ffee0000000000a001" "Lamp" None Case.minus_one
            "lighting" None true) /\
  Float.ltb Case.minus_one Float.zero = true.
Proof.
  split; [| reflexivity].
  apply (product_read_keeps_any_price Reference.lib Sample.lamp_document
           (ProductOut.mk "64f0c0ffee0000000000a001" "Lamp" None
              (Float.of_Z 3) "lighting" None true) Case.minus_one).
  reflexivity.
Defined.

(** On read the amounts of an order are not checked against a bound either:
    a document that maps still maps when its subtotal, tax or total is
    replaced by any float, and the output then carries that float. *)
Theorem order_read_keeps_any_amount (L : PyLib) (doc : dict)
  (out : OrderOut.t) (f : Float.float) :
  to_order_out L doc = Ok out ->
  to_order_out L (set "subtotal" (VFloat f) doc)
    = Ok (OrderOut.mk (OrderOut.id out) (OrderOut.customer_name out)
            (OrderOut.customer_email out) (OrderOut.shipping_address out)
            (OrderOut.items out) f (OrderOut.tax out) (OrderOut.total out)
            (OrderOut.status out)) /\
  to_order_out L (set "tax" (VFloat f) doc)
    = Ok (OrderOut.mk (OrderOut.id out) (OrderOut.customer_name out)
            (OrderOut.customer_email out) (OrderOut.shipping_address out)
            (OrderOut.items out) (OrderOut.subtotal out) f (OrderOut.total out)
            (OrderOut.status out)) /\
  to_order_out L (set "total" (VFloat f) doc)
    = Ok (OrderOut.mk (OrderOut.id out) (OrderOut.customer_name out)
            (OrderOut.customer_email out) (OrderOut.shipping_address out)
            (OrderOut.items out) (OrderOut.subtotal out) (OrderOut.tax out) f
            (OrderOut.status out)).
Proof.
  intros H. apply to_order_out_Ok in H
    as (Hid & Hn & He & Ha & Hi & Hs & Ht & Hu & Hst).
  repeat apply conj; apply to_order_out_Ok; simpl; other_keys;
    repeat split; assumption.
Qed.

Lemma order_read_keeps_any_amount_witness :
  to_order_out Reference.lib
    (set "total" (VFloat Case.minus_one) (Sample.order_document []))
    = Ok (OrderOut.mk "64f0c0ffee0000000000b001" "Ann" "ann@example.com"
            "1 Road" [] (Float.of_Z 5) Float.zero Case.minus_one "pending").
Proof.
  apply (proj2 (proj2
           (order_read_keeps_any_amount Reference.lib (Sample.order_document [])
              (OrderOut.mk "64f0c0ffee0000000000b001" "Ann" "ann@example.com"
                 "1 Road" [] (Float.of_Z 5) Float.zero (Float.of_Z 5) "pending")
              Case.minus_one eq_refl))).
Defined.

(** The in_stock of a mapped product is the truth value of the stored field:
    true when the field is absent, false when it is stored as [None], true
    for every non-empty string; and whatever value is stored there, the
    document maps. *)
Theorem product_in_stock_on_read (L : PyLib) (doc : dict)
  (out : ProductOut.t) :
  to_product_out L doc = Ok out ->
  (get "in_stock" doc = None -> ProductOut.in_stock out = true) /\
  (get "in_stock" doc = Some VNone -> ProductOut.in_stock out = false) /\
  (forall b, get "in_stock" doc = Some (VBool b) -> ProductOut.in_stock out = b) /\
  (forall s, get "in_stock" doc = Some (VStr s) -> s <> "" ->
             ProductOut.in_stock out = true) /\
  (forall v,
     to_product_out L (set "in_stock" v doc)
       = Ok (ProductOut.mk (ProductOut.id out) (ProductOut.title out)
               (ProductOut.description out) (ProductOut.price out)
               (ProductOut.category out) (ProductOut.image out) (py_bool v))).
Proof.
  intros H. apply to_product_out_Ok in H as (Hid & Ht & Hd & Hp & Hc & Hi & Hs).
  rewrite Hs. unfold get_default at 1 2 3 4.
  repeat apply conj.
  - intros ->. reflexivity.
  - intros ->. reflexivity.
  - intros b ->. reflexivity.
  - intros s -> Hne. change (negb (String.eqb s "") = true).
    apply negb_true_iff. now apply String.eqb_neq.
  - intros v. apply to_product_out_Ok. simpl. other_keys.
    repeat split; assumption.
Qed.

Lemma product_in_stock_on_read_witness :
  to_product_out Reference.lib (set "in_stock" (VStr "false") Sample.lamp_document)
    = Ok (ProductOut.mk "64f0c0ffee0000000000a001" "Lamp" None (Float.of_Z 3)
            "lighting" None true).
Proof.
  apply (proj2 (proj2 (proj2 (proj2
           (product_in_stock_on_read Reference.lib Sample.lamp_document
              (ProductOut.mk "64f0c0ffee0000000000a001" "Lamp" None
                 (Float.of_Z 3) "lighting" None true) eq_refl))))
           (VStr "false")).
Defined.

(** The defaults of [to_order_out] stand in for an absent field only.  A
    document that holds [None] under subtotal makes it raise a type error;
    one that holds [None] under tax, total, status or items is never
    mapped. *)
Theorem order_null_fields (L : PyLib) (doc : dict) :
  (get "subtotal" doc = Some VNone -> to_order_out L doc = Raise TypeError) /\
  (forall k,
     In k ["tax"; "total"; "status"; "items"] ->
     get k doc = Some VNone ->
     exists e, to_order_out L doc = Raise e).
Proof.
  split.
  - intros H. unfold to_order_out, get_default. rewrite H. reflexivity.
  - intros k Hk Hnull.
    destruct (to_order_out L doc) as [out|e] eqn:E; [exfalso | eauto].
    apply to_order_out_Ok in E as (_ & _ & _ & _ & Hi & _ & Ht & Hu & Hst).
    unfold get_default in Hi, Ht, Hu, Hst.
    simpl in Hk. destruct Hk as [<-|[<-|[<-|[<-|[]]]]];
      rewrite Hnull in *; discriminate.
Qed.

Lemma order_null_fields_witness :
  to_order_out Reference.lib
    (set "subtotal" VNone (Sample.order_document []))
    = Raise TypeError.
Proof.
  apply (proj1 (order_null_fields Reference.lib _)). reflexivity.
Defined.

(* ------------------------------------------------------------------ *)
(** * Further properties of the handlers *)

Lemma map_result_Forall2 {A B} (f : A -> result B) (l : list A)
  (r : list B) :
  map_result f l = Ok r <-> Forall2 (fun a b => f a = Ok b) l r.
Proof.
  revert r. induction l as [|a l IH]; intros r; simpl.
  - split.
    + intros [= <-]. constructor.
    + intros H. inversion H. reflexivity.
  - destruct (f a) as [b|e] eqn:Ea; simpl.
    + destruct (map_result f l) as [r'|e'] eqn:Er; simpl.
      * split.
        -- intros [= <-]. constructor; [assumption | now apply IH].
        -- intros H. inversion H as [|? b' ? r'' Hb Hr]; subst.
           apply IH in Hr. congruence.
      * split; [discriminate |].
        intros H. inversion H as [|? b' ? r'' Hb Hr]; subst.
        apply IH in Hr. discriminate.
    + split; [discriminate |].
      intros H. inversion H; subst. congruence.
Qed.

Lemma map_result_first_failure {A B} (f : A -> result B)
  (good rest : list A) (d : A) (outs : list B) (e : exn) :
  map_result f good = Ok outs -> f d = Raise e ->
  map_result f (good ++ d :: rest) = Raise e.
Proof.
  revert outs. induction good as [|a good IH]; intros outs Hgood Hd; simpl.
  - now rewrite Hd.
  - simpl in Hgood. destruct (f a) as [b|]; simpl in *; [|discriminate].
    destruct (map_result f good) as [r|] eqn:Er; simpl in *; [|discriminate].
    now rewrite (IH r eq_refl Hd).
Qed.

Lemma map_result_app {A B} (f : A -> result B) (l1 l2 : list A)
  (r1 r2 : list B) :
  map_result f l1 = Ok r1 -> map_result f l2 = Ok r2 ->
  map_result f (l1 ++ l2) = Ok (r1 ++ r2).
Proof.
  intros H1 H2. apply map_result_Forall2.
  apply Forall2_app; now apply map_result_Forall2.
Qed.

Lemma list_products_configured (L : PyLib) (category q : option string)
  (w : World) :
  db w <> None ->
  list_products L category q w
  = match get_documents L "product" (list_products_filter category q) w with
    | (Ok docs, w') => (map_result (to_product_out L) docs, w')
    | (Raise e, w') => (Raise e, w')
    end.
Proof.
  intros Hdb. unfold list_products.
  destruct (db w); [reflexivity | contradiction].
Qed.

Lemma list_orders_configured (L : PyLib) (w : World) :
  db w <> None ->
  list_orders L w
  = match get_documents L "order" [] w with
    | (Ok docs, w') => (map_result (to_order_out L) docs, w')
    | (Raise e, w') => (Raise e, w')
    end.
Proof.
  intros Hdb. unfold list_orders.
  destruct (db w); [reflexivity | contradiction].
Qed.

(** GET /products on a configured store answers as a whole.  An exception of
    the store accessor is passed on; when the accessor returns documents, the
    answer has one output per document, in the same order, each the mapping
    of its document; and a single document that does not map makes the whole
    request fail with that document's exception, the outputs of the
    documents before it being dropped. *)
Theorem list_products_all_or_nothing (L : PyLib) (category q : option string)
  (w : World) :
  db w <> None ->
  (forall e,
     fst (get_documents L "product" (list_products_filter category q) w)
       = Raise e ->
     fst (list_products L category q w) = Raise e) /\
  (forall docs outs,
     fst (get_documents L "product" (list_products_filter category q) w)
       = Ok docs ->
     fst (list_products L category q w) = Ok outs ->
     length outs = length docs /\
     Forall2 (fun d o => to_product_out L d = Ok o) docs outs) /\
  (forall good d rest outs e,
     fst (get_documents L "product" (list_products_filter category q) w)
       = Ok (good ++ d :: rest) ->
     map_result (to_product_out L) good = Ok outs ->
     to_product_out L d = Raise e ->
     fst (list_products L category q w) = Raise e).
Proof.
  intros Hdb. rewrite (list_products_configured L category q w Hdb).
  destruct (get_documents L "product" (list_products_filter category q) w)
    as [[docs|e0] w']; simpl; repeat apply conj.
  - discriminate.
  - intros docs' outs [= <-] Hm. apply map_result_Forall2 in Hm.
    split; [symmetry; eapply Forall2_length; exact Hm | exact Hm].
  - intros good d rest outs e [= ->] Hgood Hd.
    eapply map_result_first_failure; eauto.
  - intros e [= <-]. reflexivity.
  - discriminate.
  - discriminate.
Qed.

(** GET /orders on a configured store answers as a whole, in the same way:
    an exception of the store accessor is passed on, the answer has one
    output per stored order, in order, and one order that does not map makes
    the whole request fail. *)
Theorem list_orders_all_or_nothing (L : PyLib) (w : World) :
  db w <> None ->
  (forall e,
     fst (get_documents L "order" [] w) = Raise e ->
     fst (list_orders L w) = Raise e) /\
  (forall docs outs,
     fst (get_documents L "order" [] w) = Ok docs ->
     fst (list_orders L w) = Ok outs ->
     length outs = length docs /\
     Forall2 (fun d o => to_order_out L d = Ok o) docs outs) /\
  (forall good d rest outs e,
     fst (get_documents L "order" [] w) = Ok (good ++ d :: rest) ->
     map_result (to_order_out L) good = Ok outs ->
     to_order_out L d = Raise e ->
     fst (list_orders L w) = Raise e).
Proof.
  intros Hdb. rewrite (list_orders_configured L w Hdb).
  destruct (get_documents L "order" [] w) as [[docs|e0] w']; simpl;
    repeat apply conj.
  - discriminate.
  - intros docs' outs [= <-] Hm. apply map_result_Forall2 in Hm.
    split; [symmetry; eapply Forall2_length; exact Hm | exact Hm].
  - intros good d rest outs e [= ->] Hgood Hd.
    eapply map_result_first_failure; eauto.
  - intros e [= <-]. reflexivity.
  - discriminate.
  - discriminate.
Qed.

Lemma list_products_all_or_nothing_witness :
  fst (list_products Reference.lib None None Case.spoiled)
    = Raise ValidationError.
Proof.
  assert (Hdb : db Case.spoiled <> None) by discriminate.
  apply (proj2 (proj2 (list_products_all_or_nothing Reference.lib None None
                         Case.spoiled Hdb))
           [Sample.lamp_document] Sample.untitled_document []
           [ProductOut.mk "64f0c0ffee0000000000a001" "Lamp" None (Float.of_Z 3)
              "lighting" None true]);
    reflexivity.
Defined.

Lemma list_orders_all_or_nothing_witness :
  fst (list_orders Reference.lib Case.spoiled) = Raise ValidationError.
Proof.
  assert (Hdb : db Case.spoiled <> None) by discriminate.
  apply (proj2 (proj2 (list_orders_all_or_nothing Reference.lib
                         Case.spoiled Hdb))
           [] (Sample.order_document [Sample.item_payload 0]) [] []);
    reflexivity.
Defined.

(** Each query parameter can only narrow the selection: a document selected
    under a category and a text is selected under the category alone, under
    the text alone and under no parameter at all. *)
Theorem parameters_narrow (L : PyLib) (category q : option string)
  (doc : dict) :
  matches L (list_products_filter category q) doc = true ->
  matches L (list_products_filter category None) doc = true /\
  matches L (list_products_filter None q) doc = true /\
  matches L (list_products_filter None None) doc = true.
Proof.
  unfold list_products_filter, matches.
  change (truthy None) with false.
  destruct (truthy category), (truthy q); simpl;
    rewrite ?andb_true_r; intros H; repeat split; try reflexivity;
    try exact H.
  - now apply andb_true_iff in H as [H _].
  - now apply andb_true_iff in H as [_ H].
Qed.

Lemma parameters_narrow_witness :
  matches Reference.lib (list_products_filter (Some "lighting") None)
    Sample.lamp_document = true /\
  matches Reference.lib (list_products_filter None (Some "AM"))
    Sample.lamp_document = true /\
  matches Reference.lib (list_products_filter None None)
    Sample.lamp_document = true.
Proof.
  apply (parameters_narrow Reference.lib (Some "lighting") (Some "AM")
           Sample.lamp_document).
  reflexivity.
Defined.

(* ------------------------------------------------------------------ *)
(** * Further properties of the diagnostic route *)

Lemma env_set_true (k : string) (w : World) :
  env_set k w = true -> exists v, In (k, v) (environ w) /\ v <> "".
Proof.
  unfold env_set.
  destruct (find (fun kv => String.eqb k (fst kv)) (environ w))
    as [[k' v]|] eqn:E; [|discriminate].
  intros Hv. apply find_some in E as [Hin Hk]. simpl in Hk.
  apply String.eqb_eq in Hk. subst k'.
  exists v. split; [exact Hin |].
  intros ->. discriminate.
Qed.

(** In the response of GET /test the fields database_url and database_name
    tell only whether the variables DATABASE_URL and DATABASE_NAME are set in
    the environment: whatever the state of the store, each is "Set" or "Not
    Set", the name of the store is not reported, and a variable is set only
    when the environment binds it to a non-empty text. *)
Theorem test_database_environment (L : PyLib) (w : World) :
  exists response w',
    test_database L w = (Ok response, w') /\
    get "backend" response = Some (VStr "✅ Running") /\
    get "database_url" response
      = Some (VStr (if env_set "DATABASE_URL" w
                    then "✅ Set" else "❌ Not Set")) /\
    get "database_name" response
      = Some (VStr (if env_set "DATABASE_NAME" w
                    then "✅ Set" else "❌ Not Set")) /\
    (forall k, env_set k w = true ->
               exists v, In (k, v) (environ w) /\ v <> "").
Proof.
  assert (Henv := fun k => env_set_true k w).
  destruct w as [[[name cs [msg|] next]|] env trace];
    eexists _, _; (split; [reflexivity |]);
    repeat split; try reflexivity; exact Henv.
Qed.

Lemma test_database_environment_witness :
  exists response w',
    test_database Reference.lib Case.half_set = (Ok response, w') /\
    get "database_url" response = Some (VStr "✅ Set") /\
    get "database_name" response = Some (VStr "❌ Not Set").
Proof.
  destruct (test_database_environment Reference.lib Case.half_set)
    as (response & w' & Hrun & _ & Hurl & Hname & _).
  exists response, w'. exact (conj Hrun (conj Hurl Hname)).
Defined.

(** GET /test leaves the store and the environment as they are, and calls the
    store once, to list the collection names, when the store is configured,
    and not at all when it is not. *)
Theorem test_database_effects (L : PyLib) (w : World) :
  db (snd (test_database L w)) = db w /\
  environ (snd (test_database L w)) = environ w /\
  calls (snd (test_database L w))
    = calls w ++ match db w with
                 | Some _ => [ListCollectionNames]
                 | None => []
                 end.
Proof.
  destruct w as [[[name cs [msg|] next]|] env trace]; simpl;
    repeat split; try reflexivity.
  now rewrite app_nil_r.
Qed.

Lemma take_all (n : nat) (s : string) :
  char_count s <= n -> take n s = s.
Proof.
  revert n. induction s as [|c s IH]; intros n H; simpl in *;
    [reflexivity |].
  destruct (is_continuation c).
  - rewrite IH by exact H. reflexivity.
  - destruct n as [|n]; [lia |].
    rewrite IH by lia. reflexivity.
Qed.

(** An error text of at most 50 characters is reported in full by GET /test,
    after the prefix, however many bytes its characters take. *)
Theorem short_error_in_full (L : PyLib) (w : World) (store : Database)
  (msg : string) :
  db w = Some store -> db_fault store = Some msg ->
  char_count msg <= 50 ->
  exists response w',
    test_database L w = (Ok response, w') /\
    get "database" response
      = Some (VStr ("⚠️  Connected but Error: " ++ msg)).
Proof.
  intros Hdb Hfault Hlen.
  destruct w as [dbo env trace]. simpl in Hdb. subst dbo.
  destruct store as [name cs fault next]. simpl in Hfault. subst fault.
  eexists _, _. split; [reflexivity |].
  transitivity (Some (VStr ("⚠️  Connected but Error: " ++ take 50 msg)));
    [reflexivity |].
  now rewrite (take_all 50 msg Hlen).
Qed.

Lemma short_error_in_full_witness :
  char_count "éééééééééééééééééééééééééééééé" = 30 /\
  String.length "éééééééééééééééééééééééééééééé" = 60 /\
  exists response w',
    test_database Reference.lib Case.refused = (Ok response, w') /\
    get "database" response
      = Some (VStr "⚠️  Connected but Error: éééééééééééééééééééééééééééééé").
Proof.
  split; [reflexivity |]. split; [reflexivity |].
  apply (short_error_in_full Reference.lib Case.refused
           {| db_name := None; db_collections := [];
              db_fault := Some "éééééééééééééééééééééééééééééé";
              db_next_id := 0 |}
           "éééééééééééééééééééééééééééééé"); try reflexivity.
  simpl. lia.
Defined.

(* ------------------------------------------------------------------ *)
(** * Creating, then listing *)

Lemma collection_insert_same (name : string) (doc : dict)
  (cs : list (string * list dict)) :
  collection name (insert_document name doc cs) = collection name cs ++ [doc].
Proof.
  induction cs as [|[n docs] cs IH]; simpl.
  - now rewrite String.eqb_refl.
  - destruct (String.eqb name n) eqn:E; simpl; rewrite E; [reflexivity | exact IH].
Qed.

Lemma collection_insert_other (name other : string) (doc : dict)
  (cs : list (string * list dict)) :
  name <> other ->
  collection other (insert_document name doc cs) = collection other cs.
Proof.
  intros Hne. induction cs as [|[n docs] cs IH]; simpl.
  - destruct (String.eqb_spec other name); [congruence | reflexivity].
  - destruct (String.eqb_spec name n) as [->|Hn]; simpl.
    + destruct (String.eqb_spec other n); [congruence | reflexivity].
    + now rewrite IH.
Qed.

Lemma filter_all {A} (f : A -> bool) (l : list A) :
  (forall a, f a = true) -> filter f l = l.
Proof.
  intros H. induction l as [|a l IH]; simpl; [reflexivity |].
  now rewrite H, IH.
Qed.

(** The state after a successful [create_document]. *)
Definition created (name : string) (data : dict) (store : Database)
  (w : World) : World :=
  with_db {| db_name := db_name store;
             db_collections :=
               insert_document name
                 (attach_id (oid_text (db_next_id store)) data)
                 (db_collections store);
             db_fault := db_fault store;
             db_next_id := S (db_next_id store) |}
    (record_call (CreateDocument name data) w).

Lemma create_document_healthy (name : string) (data : dict) (w : World)
  (store : Database) :
  db w = Some store -> db_fault store = None ->
  create_document name data w
    = (Ok (oid_text (db_next_id store)), created name data store w).
Proof.
  intros Hdb Hfault. unfold create_document, created. rewrite Hdb.
  destruct (db_fault store); [discriminate | reflexivity].
Qed.

Definition created_store (name : string) (data : dict) (store : Database)
  : Database :=
  {| db_name := db_name store;
     db_collections :=
       insert_document name (attach_id (oid_text (db_next_id store)) data)
         (db_collections store);
     db_fault := db_fault store;
     db_next_id := S (db_next_id store) |}.

Lemma created_db (name : string) (data : dict) (store : Database)
  (w : World) :
  db (created name data store w) = Some (created_store name data store).
Proof. reflexivity. Qed.

Lemma list_products_healthy (L : PyLib) (category q : option string)
  (w : World) (store : Database) :
  db w = Some store -> db_fault store = None ->
  fst (list_products L category q w)
    = map_result (to_product_out L)
        (filter (matches L (list_products_filter category q))
           (collection "product" (db_collections store))).
Proof.
  intros Hdb Hfault. unfold list_products. rewrite Hdb.
  unfold bindH, get_documents, lift. rewrite Hdb, Hfault. reflexivity.
Qed.

Lemma list_orders_healthy (L : PyLib) (w : World) (store : Database) :
  db w = Some store -> db_fault store = None ->
  fst (list_orders L w)
    = map_result (to_order_out L) (collection "order" (db_collections store)).
Proof.
  intros Hdb Hfault. unfold list_orders. rewrite Hdb.
  unfold bindH, get_documents, lift. rewrite Hdb, Hfault.
  cbn [fst]. now rewrite filter_all by reflexivity.
Qed.

(** A product that POST /products accepts and stores is among the products
    of the next unfiltered GET /products, with the identifier that the POST
    returned and the fields of the validated payload; the products listed
    before are all still listed, and the listing is one longer.  (The store
    is configured and reachable, and the products it already holds map.
    Nothing is said of the position of the new product in the listing.) *)
Theorem created_product_is_listed (L : PyLib) (body : dict) (p : Product.t)
  (w : World) (store : Database) (outs : list ProductOut.t) :
  Product_validate L body = Ok p ->
  db w = Some store -> db_fault store = None ->
  fst (list_products L None None w) = Ok outs ->
  exists oid w1 outs1,
    post_products L body w = (Ok oid, w1) /\
    fst (list_products L None None w1) = Ok outs1 /\
    In (ProductOut.mk oid (Product.title p) (Product.description p)
          (Product.price p) (Product.category p) (Product.image p)
          (Product.in_stock p)) outs1 /\
    (forall x, In x outs -> In x outs1) /\
    length outs1 = S (length outs).
Proof.
  intros Hvalid Hdb Hfault Hold.
  exists (oid_text (db_next_id store)),
         (created "product" (Product_dump p) store w),
         (outs ++ [ProductOut.mk (oid_text (db_next_id store))
                     (Product.title p) (Product.description p)
                     (Product.price p) (Product.category p) (Product.image p)
                     (Product.in_stock p)]).
  repeat apply conj.
  - unfold post_products, bindH, lift. rewrite Hvalid.
    unfold create_product. rewrite Hdb. unfold bindH.
    now rewrite (create_document_healthy _ _ _ _ Hdb Hfault).
  - rewrite (list_products_healthy L None None w store Hdb Hfault) in Hold.
    rewrite (list_products_healthy L None None _ _
               (created_db "product" (Product_dump p) store w) Hfault).
    change (list_products_filter None None) with (@nil (string * value)) in *.
    rewrite filter_all in Hold by reflexivity.
    rewrite filter_all by reflexivity.
    cbn [created_store db_collections].
    rewrite collection_insert_same.
    apply map_result_app; [exact Hold |].
    cbn [map_result]. now rewrite to_product_out_of_dump.
  - apply in_or_app. right. now left.
  - intros x Hx. apply in_or_app. now left.
  - rewrite length_app. simpl. lia.
Qed.

Lemma created_product_is_listed_witness :
  exists oid w1 outs1,
    post_products Reference.lib Sample.product_payload Sample.configured
      = (Ok oid, w1) /\
    fst (list_products Reference.lib None None w1) = Ok outs1 /\
    In (ProductOut.mk oid "Lamp" None (Float.of_Z 10) "tools" None true)
       outs1 /\
    length outs1 = 2.
Proof.
  destruct (created_product_is_listed Reference.lib Sample.product_payload
              Sample.product Sample.configured Sample.shop
              [ProductOut.mk "64f0c0ffee0000000000a001" "Lamp" None
                 (Float.of_Z 3) "lighting" None true]
              eq_refl eq_refl eq_refl eq_refl)
    as (oid & w1 & outs1 & Hpost & Hlist & Hin & _ & Hlen).
  exists oid, w1, outs1. exact (conj Hpost (conj Hlist (conj Hin Hlen))).
Defined.

(** An order that POST /orders accepts and stores is among the orders of the
    next GET /orders, with the identifier that the POST returned and the
    fields and items of the validated payload (the tax as the float it
    denotes); the orders listed before are all still listed, the listing is
    one longer, and the products listed are the same as before.  (The store
    is configured and reachable, and the orders it already holds map.
    Nothing is said of the position of the new order in the listing.) *)
Theorem created_order_is_listed (L : PyLib) (body : dict) (o : Order.t)
  (w : World) (store : Database) (outs : list OrderOut.t) :
  Order_validate L body = Ok o ->
  db w = Some store -> db_fault store = None ->
  fst (list_orders L w) = Ok outs ->
  exists oid w1 outs1,
    post_orders L body w = (Ok oid, w1) /\
    fst (list_orders L w1) = Ok outs1 /\
    In (OrderOut.mk oid (Order.customer_name o) (Order.customer_email o)
          (Order.shipping_address o) (Order.items o) (Order.subtotal o)
          (number_float (Order.tax o)) (Order.total o) (Order.status o))
       outs1 /\
    (forall x, In x outs -> In x outs1) /\
    length outs1 = S (length outs) /\
    (forall category q,
       fst (list_products L category q w1)
         = fst (list_products L category q w)).
Proof.
  intros Hvalid Hdb Hfault Hold.
  exists (oid_text (db_next_id store)),
         (created "order" (Order_dump o) store w),
         (outs ++ [OrderOut.mk (oid_text (db_next_id store))
                     (Order.customer_name o) (Order.customer_email o)
                     (Order.shipping_address o) (Order.items o)
                     (Order.subtotal o) (number_float (Order.tax o))
                     (Order.total o) (Order.status o)]).
  repeat apply conj.
  - unfold post_orders, bindH, lift. rewrite Hvalid.
    unfold create_order. rewrite Hdb. unfold bindH.
    now rewrite (create_document_healthy _ _ _ _ Hdb Hfault).
  - rewrite (list_orders_healthy L w store Hdb Hfault) in Hold.
    rewrite (list_orders_healthy L _ _
               (created_db "order" (Order_dump o) store w) Hfault).
    cbn [created_store db_collections].
    rewrite collection_insert_same.
    apply map_result_app; [exact Hold |].
    cbn [map_result]. rewrite to_order_out_of_dump; [reflexivity | |].
    + exact (accepted_items_in_bounds L body o Hvalid).
    + exact (accepted_tax_converts L body o Hvalid).
  - apply in_or_app. right. now left.
  - intros x Hx. apply in_or_app. now left.
  - rewrite length_app. simpl. lia.
  - intros category q.
    rewrite (list_products_healthy L category q w store Hdb Hfault).
    rewrite (list_products_healthy L category q _ _
               (created_db "order" (Order_dump o) store w) Hfault).
    cbn [created_store db_collections].
    now rewrite collection_insert_other by discriminate.
Qed.

Lemma created_order_is_listed_witness :
  exists oid w1 outs1,
    post_orders Reference.lib Case.full_order_payload Sample.configured
      = (Ok oid, w1) /\
    fst (list_orders Reference.lib w1) = Ok outs1 /\
    In (OrderOut.mk oid "Ann" "ann@example.com" "1 Road"
          (Order.items Case.full_order) (Float.of_Z 5) (Float.of_Z 0)
          (Float.of_Z 5) "pending") outs1 /\
    length outs1 = 1.
Proof.
  destruct (created_order_is_listed Reference.lib Case.full_order_payload
              Case.full_order Sample.configured Sample.shop []
              eq_refl eq_refl eq_refl eq_refl)
    as (oid & w1 & outs1 & Hpost & Hlist & Hin & _ & Hlen & _).
  exists oid, w1, outs1. exact (conj Hpost (conj Hlist (conj Hin Hlen))).
Defined.
